(** * Credit-factor scoring of [xai_engine/get_analysis.py]

    A shallow embedding of [load_plaid_data], [calculate_factors_from_plaid]
    and [main], followed by the properties of the scoring contract.

    Python values are modelled as the program reads them:
    - [int] is [Z]; [float] is IEEE 754 binary64, taken from the Standard
      Library's [SpecFloat] (53-bit mantissa, round to nearest even);
    - a raised exception is the [Raise] outcome of the [result] monad;
    - a dict read only through [.get(key, default)] is a record of options,
      [None] standing for an absent key. *)

From Stdlib Require Import ZArith List String Ascii Bool Lia SpecFloat DecimalString
  Permutation.
Import ListNotations.
Open Scope string_scope.
Open Scope Z_scope.

(** ** Exceptions *)

(** The exceptions the scoring code can raise, one constructor per raising
    site.  All of them derive from [Exception]. *)
Inductive exn : Type :=
| AttributeError_get          (* plaid_data has no attribute 'get' *)
| ValueError_min_empty        (* min() of an empty sequence *)
| ValueError_int_nan          (* int(nan) *)
| OverflowError_int_inf       (* int(inf) *)
| OverflowError_int_to_float  (* int too large to convert to float *)
| OverflowError_division      (* integer division result too large for a float *)
| ZeroDivisionError.

(** The outcome of a call: a value, or an exception on its way up. *)
Inductive result (A : Type) : Type :=
| Ok (a : A)
| Raise (e : exn).
Arguments Ok {A} a.
Arguments Raise {A} e.

Definition bind {A B : Type} (r : result A) (k : A -> result B) : result B :=
  match r with
  | Ok a => k a
  | Raise e => Raise e
  end.

Notation "x <- c ;; k" := (bind c (fun x => k))
  (at level 61, c at next level, right associativity).

(** ** Numbers *)

Module Float64.
Definition prec : Z := 53.
Definition emax : Z := 1024.
Definition float : Type := spec_float.

(** Correctly rounded conversion of an integer. *)
Definition of_Z (z : Z) : float := binary_normalize prec emax z 0 false.

Definition add : float -> float -> float := SFadd prec emax.
Definition mul : float -> float -> float := SFmul prec emax.
Definition div : float -> float -> float := SFdiv prec emax.

Definition is_zero (f : float) : bool :=
  match f with S754_zero _ => true | _ => false end.

Definition is_infinite (f : float) : bool :=
  match f with S754_infinity _ => true | _ => false end.

(** An integer as an exact operand of a correctly rounded operation. *)
Definition exact (z : Z) : float :=
  match z with
  | Z0 => S754_zero false
  | Zpos p => S754_finite false p 0
  | Zneg p => S754_finite true p 0
  end.

(** Exact comparison of a float with an integer. *)
Definition compare_Z (f : float) (z : Z) : option comparison :=
  match f with
  | S754_nan => None
  | S754_infinity s => Some (if s then Lt else Gt)
  | S754_zero _ => Some (0 ?= z)
  | S754_finite s m e =>
      let v := if s then Z.neg m else Z.pos m in
      Some (if 0 <=? e then (v * 2 ^ e ?= z) else (v ?= z * 2 ^ (- e)))
  end.

(** The literal [0.85]: the double nearest to 85/100. *)
Definition lit_0_85 : float := S754_finite false 7656119366529843 (-53).
End Float64.

(** A Python number: an [int] of any size or a [float]. *)
Inductive pynum : Type :=
| PyInt (z : Z)
| PyFloat (f : Float64.float).

(** [float(z)] as the arithmetic operators apply it to an int operand. *)
Definition float_of_int (z : Z) : result Float64.float :=
  let f := Float64.of_Z z in
  if Float64.is_infinite f then Raise OverflowError_int_to_float else Ok f.

(** [a + b]; an int operand next to a float is converted first. *)
Definition py_add (a b : pynum) : result pynum :=
  match a, b with
  | PyInt x, PyInt y => Ok (PyInt (x + y))
  | PyFloat x, PyFloat y => Ok (PyFloat (Float64.add x y))
  | PyInt x, PyFloat y => fx <- float_of_int x ;; Ok (PyFloat (Float64.add fx y))
  | PyFloat x, PyInt y => fy <- float_of_int y ;; Ok (PyFloat (Float64.add x fy))
  end.

(** [a * b] *)
Definition py_mul (a b : pynum) : result pynum :=
  match a, b with
  | PyInt x, PyInt y => Ok (PyInt (x * y))
  | PyFloat x, PyFloat y => Ok (PyFloat (Float64.mul x y))
  | PyInt x, PyFloat y => fx <- float_of_int x ;; Ok (PyFloat (Float64.mul fx y))
  | PyFloat x, PyInt y => fy <- float_of_int y ;; Ok (PyFloat (Float64.mul x fy))
  end.

(** Float division; a zero divisor raises. *)
Definition float_truediv (x y : Float64.float) : result pynum :=
  if Float64.is_zero y then Raise ZeroDivisionError
  else Ok (PyFloat (Float64.div x y)).

(** [a / b].  On two ints the quotient of the exact values is rounded once. *)
Definition py_truediv (a b : pynum) : result pynum :=
  match a, b with
  | PyInt x, PyInt y =>
      if y =? 0 then Raise ZeroDivisionError
      else
        let q := Float64.div (Float64.exact x) (Float64.exact y) in
        if Float64.is_infinite q then Raise OverflowError_division
        else Ok (PyFloat q)
  | PyFloat x, PyFloat y => float_truediv x y
  | PyInt x, PyFloat y => fx <- float_of_int x ;; float_truediv fx y
  | PyFloat x, PyInt y => fy <- float_of_int y ;; float_truediv x fy
  end.

(** [abs(a)] *)
Definition py_abs (a : pynum) : pynum :=
  match a with
  | PyInt x => PyInt (Z.abs x)
  | PyFloat x => PyFloat (SFabs x)
  end.

(** Comparisons are exact, also between an int and a float; a NaN operand
    makes every ordering test false. *)
Definition py_compare (a b : pynum) : option comparison :=
  match a, b with
  | PyInt x, PyInt y => Some (x ?= y)
  | PyFloat x, PyFloat y => SFcompare x y
  | PyFloat x, PyInt y => Float64.compare_Z x y
  | PyInt x, PyFloat y => option_map CompOpp (Float64.compare_Z y x)
  end.

Definition py_lt (a b : pynum) : bool :=
  match py_compare a b with Some Lt => true | _ => false end.
Definition py_gt (a b : pynum) : bool :=
  match py_compare a b with Some Gt => true | _ => false end.
Definition py_ge (a b : pynum) : bool :=
  match py_compare a b with Some (Gt | Eq) => true | _ => false end.
Definition py_eq (a b : pynum) : bool :=
  match py_compare a b with Some Eq => true | _ => false end.

(** [min(a, b)]: the first argument stays unless the second is smaller. *)
Definition py_min (a b : pynum) : pynum := if py_lt b a then b else a.

(** [int(x)]: truncation toward zero. *)
Definition py_int (a : pynum) : result Z :=
  match a with
  | PyInt x => Ok x
  | PyFloat S754_nan => Raise ValueError_int_nan
  | PyFloat (S754_infinity _) => Raise OverflowError_int_inf
  | PyFloat (S754_zero _) => Ok 0
  | PyFloat (S754_finite s m e) =>
      let t := if 0 <=? e then Z.pos m * 2 ^ e else Z.pos m / 2 ^ (- e) in
      Ok (if s then - t else t)
  end.

(** [sum(xs)] starts from the int [0] and adds from left to right.  (On floats
    CPython 3.12 and later carries a compensation term; the integer sums are
    the same under both.) *)
Fixpoint sum_from (acc : pynum) (xs : list pynum) : result pynum :=
  match xs with
  | [] => Ok acc
  | x :: rest => acc' <- py_add acc x ;; sum_from acc' rest
  end.

Definition py_sum (xs : list pynum) : result pynum := sum_from (PyInt 0) xs.

(** ** Strings *)

(** [str(z)] of an int, as an f-string prints it. *)
Definition str_of_int (z : Z) : string := NilZero.string_of_int (Z.to_int z).

(** [str.lower()] on ASCII text. *)
Definition lower_ascii (c : ascii) : ascii :=
  let n := nat_of_ascii c in
  if andb (Nat.leb 65 n) (Nat.leb n 90) then ascii_of_nat (n + 32) else c.

Fixpoint lower (s : string) : string :=
  match s with
  | EmptyString => EmptyString
  | String c rest => String (lower_ascii c) (lower rest)
  end.

(** [needle in s]. *)
Fixpoint contains (needle s : string) : bool :=
  if prefix needle s then true
  else match s with
       | EmptyString => false
       | String _ rest => contains needle rest
       end.

(** The least of [s] and [rest], the first one among equals. *)
Fixpoint min_string (s : string) (rest : list string) : string :=
  match rest with
  | [] => s
  | t :: rest' => min_string (if String.ltb t s then t else s) rest'
  end.

(** [min(...)] over a generator of strings. *)
Definition py_min_strings (xs : list string) : result string :=
  match xs with
  | [] => Raise ValueError_min_empty
  | s :: rest => Ok (min_string s rest)
  end.

(** ** Data model *)

(** [d.get(key, default)] on a key modelled as an option. *)
Definition get {A : Type} (field : option A) (default : A) : A :=
  match field with Some v => v | None => default end.

(** The dict under [balances]. *)
Record Balances : Type := {
  current : option pynum;
  limit : option pynum
}.

(** An element of [accounts]. *)
Record Account : Type := {
  balances : option Balances;
  subtype : option string;
  type : option string
}.

(** An element of [transactions]. *)
Record Transaction : Type := {
  amount : option pynum;
  date : option string;
  category : option string
}.

(** The dict held by [plaid_data]; [other_keys] are the keys the code never
    reads. *)
Record PlaidData : Type := {
  accounts : option (list Account);
  transactions : option (list Transaction);
  other_keys : list string
}.

(** What [json.load] can hand to [main]: any JSON document.  A dict carries
    the typed shape above: numbers where the data model has numbers, strings
    where it has strings, every key optional. *)
#[warnings="-register-all"]
Inductive pyvalue : Type :=
| VNone
| VBool (b : bool)
| VNum (n : pynum)
| VStr (s : string)
| VList (items : list pyvalue)
| VDict (d : PlaidData).

(** The truth value of a document in [if not plaid_data]. *)
Definition truthy (v : pyvalue) : bool :=
  match v with
  | VNone => false
  | VBool b => b
  | VNum (PyInt z) => negb (z =? 0)
  | VNum (PyFloat f) => negb (Float64.is_zero f)
  | VStr s => negb (String.eqb s "")
  | VList items => match items with [] => false | _ => true end
  | VDict d =>
      match accounts d, transactions d, other_keys d with
      | None, None, [] => false
      | _, _, _ => true
      end
  end.

(** One entry of [factors]. *)
Record FactorResult : Type := {
  name : string;
  impact : Z;
  percentage : Z;
  positive : bool;
  explanation : string
}.

(** The dict the function returns. *)
Record ScoreResult : Type := {
  score : Z;
  factors : list FactorResult;
  ficoEquivalent : Z;
  vcCount : Z;
  onChainScore : Z
}.

(** ** [calculate_factors_from_plaid] *)

Definition empty_balances : Balances := {| current := None; limit := None |}.

(** [acc.get('balances', {}).get('current', 0)] *)
Definition balance_current (acc : Account) : pynum :=
  get (current (get (balances acc) empty_balances)) (PyInt 0).

(** [acc.get('balances', {}).get('limit', 0)] *)
Definition balance_limit (acc : Account) : pynum :=
  get (limit (get (balances acc) empty_balances)) (PyInt 0).

(** [sum(acc.get('balances', {}).get('current', 0) for acc in accounts)] *)
Definition total_balance (accs : list Account) : result pynum :=
  py_sum (map balance_current accs).

(** [acc.get('subtype') == 'credit card'] *)
Definition is_credit_card (acc : Account) : bool :=
  match subtype acc with
  | Some s => String.eqb s "credit card"
  | None => false
  end.

Definition credit_accounts (accs : list Account) : list Account :=
  filter is_credit_card accs.

(** [sum(... .get('limit', 0) for acc in credit_accounts)] *)
Definition total_credit_limit (accs : list Account) : result pynum :=
  py_sum (map balance_limit (credit_accounts accs)).

(** [sum(abs(current) for acc in credit_accounts if current < 0)] *)
Definition total_credit_used (accs : list Account) : result pynum :=
  py_sum (map (fun acc => py_abs (balance_current acc))
              (filter (fun acc => py_lt (balance_current acc) (PyInt 0))
                      (credit_accounts accs))).

(** [tx.get('amount', 0)] *)
Definition tx_amount (tx : Transaction) : pynum := get (amount tx) (PyInt 0).

(** [[tx for tx in transactions if tx.get('amount', 0) >= 0]] *)
Definition recent_txs (txs : list Transaction) : list Transaction :=
  filter (fun tx => py_ge (tx_amount tx) (PyInt 0)) txs.

Definition len {A : Type} (xs : list A) : Z := Z.of_nat (List.length xs).

(** A list is true when it is not empty. *)
Definition nonempty {A : Type} (xs : list A) : bool :=
  match xs with [] => false | _ => true end.

(** [min(100, (len(recent_txs) / max(1, len(transactions))) * 100) if transactions else 50] *)
Definition payment_history_score (txs : list Transaction) : result pynum :=
  if nonempty txs then
    ratio <- py_truediv (PyInt (len (recent_txs txs))) (PyInt (Z.max 1 (len txs))) ;;
    pct <- py_mul ratio (PyInt 100) ;;
    Ok (py_min (PyInt 100) pct)
  else Ok (PyInt 50).

(** [int((score / 100) * weight)] *)
Definition weighted_impact (score : pynum) (weight : Z) : result Z :=
  fraction <- py_truediv score (PyInt 100) ;;
  weighted <- py_mul fraction (PyInt weight) ;;
  py_int weighted.

Definition payment_history_impact (score : pynum) : result Z :=
  weighted_impact score 35.

(** [(total_credit_used / total_credit_limit * 100) if total_credit_limit > 0 else 0] *)
Definition utilization (used lim : pynum) : result pynum :=
  if py_gt lim (PyInt 0) then
    ratio <- py_truediv used lim ;;
    py_mul ratio (PyInt 100)
  else Ok (PyInt 0).

(** [(utilization_score, utilization_impact)] *)
Definition utilization_band (u : pynum) : Z * Z :=
  if py_lt u (PyInt 30) then (100, 30)
  else if py_lt u (PyInt 50) then (80, 24)
  else if py_lt u (PyInt 70) then (60, 18)
  else (40, 12).

(** [acc.get('subtype', acc.get('type', ''))] *)
Definition account_kind (acc : Account) : string :=
  get (subtype acc) (get (type acc) "").

(** The elements of [set(...)], each once. *)
Definition account_types (accs : list Account) : list string :=
  nodup string_dec (map account_kind accs).

Definition diversity_count (accs : list Account) : Z :=
  len (account_types accs).

(** [(diversity_score, diversity_impact)] *)
Definition diversity_band (count : Z) : Z * Z :=
  if 4 <=? count then (100, 10)
  else if count =? 3 then (80, 8)
  else if count =? 2 then (60, 6)
  else (40, 4).

(** ['income' in str(tx.get('category', '')).lower() or tx.get('amount', 0) > 1000] *)
Definition is_income_tx (tx : Transaction) : bool :=
  contains "income" (lower (get (category tx) ""))
  || py_gt (tx_amount tx) (PyInt 1000).

Definition income_txs (txs : list Transaction) : list Transaction :=
  filter is_income_tx txs.

(** [70 if len(income_txs) > 0 else 50] *)
Definition income_stability_score (txs : list Transaction) : Z :=
  if 0 <? len (income_txs txs) then 70 else 50.

Definition income_stability_impact (score : Z) : result Z :=
  weighted_impact (PyInt score) 15.

(** The dates of [tx.get('date', '') for tx in transactions if tx.get('date')]. *)
Definition dated (txs : list Transaction) : list string :=
  filter (fun d => negb (String.eqb d ""))
         (map (fun tx => get (date tx) "") txs).

(** [(account_age_score, account_age_impact)]; [oldest_tx] is computed and
    dropped. *)
Definition account_age (txs : list Transaction) : result (Z * Z) :=
  if nonempty txs then
    oldest_tx <- py_min_strings (dated txs) ;;
    Ok (70, 7)
  else Ok (50, 5).

(** The five entries of [factors], fields in the order the dict literal
    evaluates them. *)
Definition payment_history_factor (n_recent : Z) (score : pynum) (imp : Z)
  : result FactorResult :=
  pct <- py_int score ;;
  Ok {| name := "Payment History";
        impact := imp;
        percentage := pct;
        positive := 30 <=? imp;
        explanation :=
          "You have " ++ str_of_int n_recent ++ " positive transactions. "
          ++ (if py_ge score (PyInt 90) then "Excellent consistency!"
              else "Good payment history.") |}.

Definition utilization_factor (u : pynum) (imp : Z) : result FactorResult :=
  pct <- (if py_gt u (PyInt 0) then py_int u else Ok 0) ;;
  shown <- py_int u ;;
  Ok {| name := "Credit Utilization";
        impact := imp - 30;
        percentage := pct;
        positive := py_lt u (PyInt 30);
        explanation :=
          "Using " ++ str_of_int shown ++ "% of available credit. "
          ++ (if py_lt u (PyInt 30) then "Excellent!"
              else if py_lt u (PyInt 70) then "Reduce to 30% for optimal score."
              else "High utilization is hurting your score.") |}.

Definition diversity_factor (count dscore imp : Z) : FactorResult :=
  {| name := "Account Diversity";
     impact := imp - 10;
     percentage := dscore;
     positive := 3 <=? count;
     explanation :=
       str_of_int count ++ " account type"
       ++ (if count =? 1 then "" else "s") ++ " active. "
       ++ (if 4 <=? count then "Excellent diversity!"
           else if count <? 3 then
             "Adding more account types would optimize this factor."
           else "Good account mix.") |}.

Definition income_factor (iscore imp : Z) : FactorResult :=
  {| name := "Income Stability";
     impact := imp - 15;
     percentage := iscore;
     positive := 70 <=? iscore;
     explanation :=
       if 70 <=? iscore then "Consistent income detected."
       else "Income varies month-to-month. Consistent income improves creditworthiness." |}.

Definition account_age_factor (ascore imp : Z) : FactorResult :=
  {| name := "Account Age";
     impact := imp - 10;
     percentage := ascore;
     positive := 70 <=? ascore;
     explanation :=
       if 70 <=? ascore then "Good credit history length."
       else "Newer accounts. Building credit history takes time." |}.

(** [int(overall_score * 0.85)] *)
Definition fico_equivalent (overall : Z) : result Z :=
  scaled <- py_mul (PyInt overall) (PyFloat Float64.lit_0_85) ;;
  py_int scaled.

(** [int(overall_score / 10)] *)
Definition on_chain_score (overall : Z) : result Z :=
  tenth <- py_truediv (PyInt overall) (PyInt 10) ;;
  py_int tenth.

(** The body of the function, once [plaid_data] is known to be a dict. *)
Definition score_plaid (d : PlaidData) : result ScoreResult :=
  let accs := get (accounts d) [] in
  let txs := get (transactions d) [] in
  balance <- total_balance accs ;;
  lim <- total_credit_limit accs ;;
  used <- total_credit_used accs ;;
  ph_score <- payment_history_score txs ;;
  ph_impact <- payment_history_impact ph_score ;;
  u <- utilization used lim ;;
  let '(u_score, u_impact) := utilization_band u in
  let count := diversity_count accs in
  let '(d_score, d_impact) := diversity_band count in
  let i_score := income_stability_score txs in
  i_impact <- income_stability_impact i_score ;;
  age <- account_age txs ;;
  let '(a_score, a_impact) := age in
  let overall := (ph_impact + u_impact + d_impact + i_impact + a_impact) * 10 in
  f1 <- payment_history_factor (len (recent_txs txs)) ph_score ph_impact ;;
  f2 <- utilization_factor u u_impact ;;
  let f3 := diversity_factor count d_score d_impact in
  let f4 := income_factor i_score i_impact in
  let f5 := account_age_factor a_score a_impact in
  fico <- fico_equivalent overall ;;
  chain <- on_chain_score overall ;;
  Ok {| score := overall;
        factors := [f1; f2; f3; f4; f5];
        ficoEquivalent := fico;
        vcCount := 0;
        onChainScore := chain |}.

(** [plaid_data.get] exists on a dict only. *)
Definition calculate_factors_from_plaid (plaid_data : pyvalue) : result ScoreResult :=
  match plaid_data with
  | VDict d => score_plaid d
  | _ => Raise AttributeError_get
  end.

(** ** [load_plaid_data] and [main] *)

(** What opening and parsing an existing path gives: [json.load] returns a
    document, or [open]/[json.load] raises and the handler returns [None]. *)
Inductive file : Type :=
| Unloadable
| Document (v : pyvalue).

(** The surroundings of one run.  [fs p = None] when [os.path.exists(p)] is
    false.  [script_candidate] and [cwd_candidate] are the two paths built
    from the script directory and from the working directory. *)
Record Environment : Type := {
  argv1 : option string;
  fs : string -> option file;
  script_candidate : string;
  cwd_candidate : string
}.

Definition exists_path (env : Environment) (p : string) : bool :=
  match fs env p with Some _ => true | None => false end.

(** [try: json.load(open(p)) except Exception: return None] on a path that
    exists; a path that vanished meanwhile fails to open as well. *)
Definition try_load (env : Environment) (p : string) : pyvalue :=
  match fs env p with
  | Some (Document v) => v
  | _ => VNone
  end.

Definition relative_candidate : string := "../plaid_node/plaid_user_data.json".

Definition load_plaid_data (env : Environment) (plaid_path : option string) : pyvalue :=
  if negb (String.eqb (get plaid_path "") "") then
    let p := get plaid_path "" in
    if exists_path env p then try_load env p else VNone
  else
    let p1 := script_candidate env in
    let p2 := if exists_path env p1 then p1 else cwd_candidate env in
    if exists_path env p2 then try_load env p2
    else if exists_path env relative_candidate then try_load env relative_candidate
    else VNone.

(** The JSON object printed on standard output; [error] is the extra key of
    the error response. *)
Record Output : Type := {
  error : option string;
  analysis : ScoreResult
}.

(** What a run leaves behind.  The diagnostics written to standard error
    are not part of it. *)
Record Outcome : Type := {
  stdout : Output;
  exit_status : Z
}.

(** The literal printed when there is no data. *)
Definition default_analysis : ScoreResult :=
  {| score := 674;
     factors :=
       [ {| name := "Payment History"; impact := 35; percentage := 92;
            positive := true; explanation :=
              "Connect your bank account via Plaid to see your real payment history analysis powered by XAI." |};
         {| name := "Credit Utilization"; impact := -20; percentage := 65;
            positive := false; explanation :=
              "Connect your bank account via Plaid to see your real credit utilization analysis powered by XAI." |};
         {| name := "Account Diversity"; impact := 10; percentage := 60;
            positive := true; explanation :=
              "Connect your bank account via Plaid to see your account diversity analysis powered by XAI." |};
         {| name := "Income Stability"; impact := -10; percentage := 55;
            positive := false; explanation :=
              "Connect your bank account via Plaid to see your income stability analysis powered by XAI." |};
         {| name := "Account Age"; impact := 15; percentage := 70;
            positive := true; explanation :=
              "Connect your bank account via Plaid to see your account age analysis powered by XAI." |} ];
     ficoEquivalent := 720;
     vcCount := 0;
     onChainScore := 68 |}.

Section Main.
(** [str(e)], the interpreter's message for an exception. *)
Variable str : exn -> string.

(** The literal printed by the exception handler. *)
Definition error_response (e : exn) : Output :=
  {| error := Some (str e);
     analysis :=
       {| score := 674;
          factors :=
            [ {| name := "Payment History"; impact := 35; percentage := 92;
                 positive := true;
                 explanation :=
                   "XAI analysis error: " ++ str e
                   ++ ". Please check server logs." |} ];
          ficoEquivalent := 720;
          vcCount := 0;
          onChainScore := 68 |} |}.

(** [main], its result being what is printed and the exit status. *)
Definition main (env : Environment) : Outcome :=
  let plaid_data := load_plaid_data env (argv1 env) in
  if negb (truthy plaid_data) then
    {| stdout := {| error := None; analysis := default_analysis |};
       exit_status := 0 |}
  else
    match calculate_factors_from_plaid plaid_data with
    | Ok result => {| stdout := {| error := None; analysis := result |};
                      exit_status := 0 |}
    | Raise e => {| stdout := error_response e; exit_status := 1 |}
    end.
End Main.

(** ** Predicates used by the statements *)

(** No bit was lost by the shifts recorded in [r]. *)
Definition is_exact (r : shr_record) : Prop := loc_of_shr_record r = loc_Exact.

(** [r] is [x] shifted right by [n] bits. *)
Definition shr_rel (n : Z) (x r : shr_record) : Prop :=
  shr_m r = shr_m x / 2 ^ n /\
  (is_exact r <-> is_exact x /\ shr_m x mod 2 ^ n = 0).

(** [f] is a zero or a finite float of sign [sx] whose magnitude is at most
    [K * 2^k]. *)
Definition below (sx : bool) (K k : Z) (f : Float64.float) : Prop :=
  match f with
  | S754_zero s => s = sx
  | S754_finite s m e => s = sx /\ e <= k /\ Z.pos m <= K * 2 ^ (k - e)
  | _ => False
  end.

(** [100.0] and [35.0], the values of [float(100)] and [float(35)]. *)
Definition hundred : Float64.float := S754_finite false 7036874417766400 (-46).
Definition thirty_five : Float64.float := S754_finite false 4925812092436480 (-47).

(** The values [payment_history_score] can take. *)
Definition score_shape (s : pynum) : Prop :=
  s = PyInt 50 \/ s = PyInt 100 \/ exists f, s = PyFloat f /\ below false 100 0 f.

(** Balances are ints of 64-bit magnitude. *)
Definition int_balances (acc : Account) : Prop :=
  exists c l, balance_current acc = PyInt c /\ balance_limit acc = PyInt l /\
              Z.abs c <= 2 ^ 63 /\ Z.abs l <= 2 ^ 63.

(** Some transaction carries a non-empty date, or there is no transaction. *)
Definition dates_usable (txs : list Transaction) : Prop :=
  txs = [] \/ dated txs <> [].

(** [load_plaid_data] finds no file, or a file that does not load. *)
Definition input_missing (env : Environment) : Prop :=
  let given := get (argv1 env) "" in
  if negb (String.eqb given "") then
    fs env given = None \/ fs env given = Some Unloadable
  else
    let p1 := script_candidate env in
    let p2 := if exists_path env p1 then p1 else cwd_candidate env in
    if exists_path env p2 then fs env p2 = Some Unloadable
    else fs env relative_candidate = None
         \/ fs env relative_candidate = Some Unloadable.

(** The factor names in display order. *)
Definition factor_names : list string :=
  ["Payment History"; "Credit Utilization"; "Account Diversity";
   "Income Stability"; "Account Age"].

(** The end-to-end example of the contract. *)
Definition example_account : Account :=
  {| balances := Some {| current := Some (PyInt (-300));
                         limit := Some (PyInt 1000) |};
     subtype := Some "credit card";
     type := None |}.

Definition example_transactions : list Transaction :=
  [ {| amount := Some (PyInt 50); date := None; category := None |};
    {| amount := Some (PyInt (-20)); date := None; category := None |} ].

Definition example_input : PlaidData :=
  {| accounts := Some [example_account];
     transactions := Some example_transactions;
     other_keys := [] |}.

(** The same transactions, the first one dated. *)
Definition example_dated : PlaidData :=
  {| accounts := Some [example_account];
     transactions :=
       Some [ {| amount := Some (PyInt 50); date := Some "2024-01-15";
                 category := None |};
              {| amount := Some (PyInt (-20)); date := None; category := None |} ];
     other_keys := [] |}.

(** [{}] and [{"accounts": [], "transactions": []}]. *)
Definition empty_dict : PlaidData :=
  {| accounts := None; transactions := None; other_keys := [] |}.

Definition empty_lists : PlaidData :=
  {| accounts := Some []; transactions := Some []; other_keys := [] |}.

(** A card drawn to twice its limit. *)
Definition over_limit : PlaidData :=
  {| accounts :=
       Some [ {| balances := Some {| current := Some (PyInt (-2000));
                                     limit := Some (PyInt 1000) |};
                 subtype := Some "credit card";
                 type := None |} ];
     transactions := Some [];
     other_keys := [] |}.

(** A card whose balance is the float [-1e308]. *)
Definition huge_balance : PlaidData :=
  {| accounts :=
       Some [ {| balances :=
                   Some {| current :=
                             Some (PyFloat (S754_finite true 5010420900022432 971));
                           limit := Some (PyInt 1) |};
                 subtype := Some "credit card";
                 type := None |} ];
     transactions := Some [];
     other_keys := [] |}.

(** A card with the float balance [-110.5] on the float limit [500.0], and a
    dated transaction. *)
Definition float_balances : PlaidData :=
  {| accounts :=
       Some [ {| balances :=
                   Some {| current :=
                             Some (PyFloat (S754_finite true 7775746231631872 (-46)));
                           limit :=
                             Some (PyFloat (S754_finite false 8796093022208000 (-44))) |};
                 subtype := Some "credit card";
                 type := Some "credit" |} ];
     transactions :=
       Some [ {| amount := Some (PyFloat (S754_finite false 7775746231631872 (-46)));
                 date := Some "2024-03-01";
                 category := Some "Payroll Income" |} ];
     other_keys := ["item"] |}.

(** An environment whose only file, named on the command line, holds [v]. *)
Definition env_with (v : pyvalue) : Environment :=
  {| argv1 := Some "plaid_user_data.json";
     fs := fun p => if String.eqb p "plaid_user_data.json"
                    then Some (Document v) else None;
     script_candidate := "/srv/app/plaid_node/plaid_user_data.json";
     cwd_candidate := "/srv/app/xai_engine/plaid_node/plaid_user_data.json" |}.

(** An environment without any file and without argument. *)
Definition env_bare : Environment :=
  {| argv1 := None;
     fs := fun _ => None;
     script_candidate := "/srv/app/plaid_node/plaid_user_data.json";
     cwd_candidate := "/srv/app/xai_engine/plaid_node/plaid_user_data.json" |}.

(** A sample of [str(e)]. *)
Definition sample_str (e : exn) : string :=
  match e with
  | AttributeError_get => "'list' object has no attribute 'get'"
  | ValueError_min_empty => "min() arg is an empty sequence"
  | ValueError_int_nan => "cannot convert float NaN to integer"
  | OverflowError_int_inf => "cannot convert float infinity to integer"
  | OverflowError_int_to_float => "int too large to convert to float"
  | OverflowError_division => "integer division result too large for a float"
  | ZeroDivisionError => "float division by zero"
  end.

(** The values the body binds on a run that returns. *)
Record Trace : Type := {
  t_balance : pynum;
  t_limit : pynum;
  t_used : pynum;
  t_score : pynum;
  t_payment : Z;
  t_utilization : pynum;
  t_income : Z;
  t_age : Z * Z;
  t_f1 : FactorResult;
  t_f2 : FactorResult;
  t_fico : Z;
  t_chain : Z
}.

Definition t_accounts (d : PlaidData) : list Account := get (accounts d) [].
Definition t_transactions (d : PlaidData) : list Transaction := get (transactions d) [].

(** The sum of the five weighted contributions, before any display offset. *)
Definition t_sum (d : PlaidData) (t : Trace) : Z :=
  t_payment t + snd (utilization_band (t_utilization t))
  + snd (diversity_band (diversity_count (t_accounts d)))
  + t_income t + snd (t_age t).

Definition trace_of (d : PlaidData) (t : Trace) : Prop :=
  total_balance (t_accounts d) = Ok (t_balance t) /\
  total_credit_limit (t_accounts d) = Ok (t_limit t) /\
  total_credit_used (t_accounts d) = Ok (t_used t) /\
  payment_history_score (t_transactions d) = Ok (t_score t) /\
  payment_history_impact (t_score t) = Ok (t_payment t) /\
  utilization (t_used t) (t_limit t) = Ok (t_utilization t) /\
  income_stability_impact (income_stability_score (t_transactions d)) = Ok (t_income t) /\
  account_age (t_transactions d) = Ok (t_age t) /\
  payment_history_factor (len (recent_txs (t_transactions d))) (t_score t) (t_payment t)
    = Ok (t_f1 t) /\
  utilization_factor (t_utilization t) (snd (utilization_band (t_utilization t)))
    = Ok (t_f2 t) /\
  fico_equivalent (t_sum d t * 10) = Ok (t_fico t) /\
  on_chain_score (t_sum d t * 10) = Ok (t_chain t).

Definition result_of (d : PlaidData) (t : Trace) : ScoreResult :=
  let count := diversity_count (t_accounts d) in
  {| score := t_sum d t * 10;
     factors :=
       [ t_f1 t; t_f2 t;
         diversity_factor count (fst (diversity_band count)) (snd (diversity_band count));
         income_factor (income_stability_score (t_transactions d)) (t_income t);
         account_age_factor (fst (t_age t)) (snd (t_age t)) ];
     ficoEquivalent := t_fico t;
     vcCount := 0;
     onChainScore := t_chain t |}.

(** The two derived scores of an overall score [s * 10] are the integer
    parts of its 85% and of its tenth. *)
Definition check_scaled (s : Z) : bool :=
  match fico_equivalent (s * 10), on_chain_score (s * 10) with
  | Ok f, Ok c => (f =? s * 10 * 85 / 100) && (c =? s)
  | _, _ => false
  end.

(** ** Expected results and constants of the examples *)

Definition example_dated_result : ScoreResult :=
  {| score := 590;
     factors :=
       [ {| name := "Payment History"; impact := 17; percentage := 50;
            positive := false;
            explanation := "You have 1 positive transactions. Good payment history." |};
         {| name := "Credit Utilization"; impact := -6; percentage := 30;
            positive := false;
            explanation :=
              "Using 30% of available credit. Reduce to 30% for optimal score." |};
         {| name := "Account Diversity"; impact := -6; percentage := 40;
            positive := false;
            explanation :=
              "1 account type active. Adding more account types would optimize this factor." |};
         {| name := "Income Stability"; impact := -8; percentage := 50;
            positive := false;
            explanation :=
              "Income varies month-to-month. Consistent income improves creditworthiness." |};
         {| name := "Account Age"; impact := -3; percentage := 70;
            positive := true;
            explanation := "Good credit history length." |} ];
     ficoEquivalent := 501;
     vcCount := 0;
     onChainScore := 59 |}.

Definition over_limit_result : ScoreResult :=
  {| score := 450;
     factors :=
       [ {| name := "Payment History"; impact := 17; percentage := 50;
            positive := false;
            explanation := "You have 0 positive transactions. Good payment history." |};
         {| name := "Credit Utilization"; impact := -18; percentage := 200;
            positive := false;
            explanation :=
              "Using 200% of available credit. High utilization is hurting your score." |};
         {| name := "Account Diversity"; impact := -6; percentage := 40;
            positive := false;
            explanation :=
              "1 account type active. Adding more account types would optimize this factor." |};
         {| name := "Income Stability"; impact := -8; percentage := 50;
            positive := false;
            explanation :=
              "Income varies month-to-month. Consistent income improves creditworthiness." |};
         {| name := "Account Age"; impact := -5; percentage := 50;
            positive := false;
            explanation := "Newer accounts. Building credit history takes time." |} ];
     ficoEquivalent := 382;
     vcCount := 0;
     onChainScore := 45 |}.

(** [30.0] and [50.0]. *)
Definition thirty : Float64.float := S754_finite false 8444249301319680 (-48).
Definition fifty : Float64.float := S754_finite false 7036874417766400 (-47).

Definition int_between (lo hi : Z) (x : pynum) : Prop :=
  exists z, x = PyInt z /\ lo <= z <= hi.

Definition empty_result : ScoreResult :=
  {| score := 630;
     factors :=
       [ {| name := "Payment History"; impact := 17; percentage := 50;
            positive := false;
            explanation := "You have 0 positive transactions. Good payment history." |};
         {| name := "Credit Utilization"; impact := 0; percentage := 0;
            positive := true;
            explanation := "Using 0% of available credit. Excellent!" |};
         {| name := "Account Diversity"; impact := -6; percentage := 40;
            positive := false;
            explanation :=
              "0 account types active. Adding more account types would optimize this factor." |};
         {| name := "Income Stability"; impact := -8; percentage := 50;
            positive := false;
            explanation :=
              "Income varies month-to-month. Consistent income improves creditworthiness." |};
         {| name := "Account Age"; impact := -5; percentage := 50;
            positive := false;
            explanation := "Newer accounts. Building credit history takes time." |} ];
     ficoEquivalent := 535;
     vcCount := 0;
     onChainScore := 63 |}.

Definition fallback_outcome : Outcome :=
  {| stdout := {| error := None; analysis := default_analysis |};
     exit_status := 0 |}.

(** * Further inputs

    Inputs at which the further properties below are instantiated, and the
    predicates of their statements. *)

(** All transactions paid in, four kinds of account, no card debt. *)
Definition best_case : PlaidData :=
  {| accounts :=
       Some [ {| balances := None; subtype := Some "checking"; type := None |};
              {| balances := None; subtype := Some "savings"; type := None |};
              {| balances := None; subtype := Some "credit card"; type := None |};
              {| balances := None; subtype := None; type := Some "loan" |} ];
     transactions :=
       Some [ {| amount := Some (PyInt 2500); date := Some "2024-02-01";
                 category := Some "Payroll" |} ];
     other_keys := [] |}.

(** One card drawn to its limit and one dated debit. *)
Definition worst_case : PlaidData :=
  {| accounts :=
       Some [ {| balances := Some {| current := Some (PyInt (-1000));
                                     limit := Some (PyInt 1000) |};
                 subtype := Some "credit card"; type := None |} ];
     transactions :=
       Some [ {| amount := Some (PyInt (-5)); date := Some "2024-02-01";
                 category := None |} ];
     other_keys := [] |}.

(** A rent payment of 1500 as the only transaction. *)
Definition rent_only : PlaidData :=
  {| accounts := Some [];
     transactions :=
       Some [ {| amount := Some (PyInt 1500); date := Some "2024-02-01";
                 category := Some "Rent" |} ];
     other_keys := [] |}.

(** A salary whose category spells the word in capitals. *)
Definition salary_only : PlaidData :=
  {| accounts := Some [];
     transactions :=
       Some [ {| amount := Some (PyInt 900); date := Some "2024-02-01";
                 category := Some "Monthly INCOME deposit" |} ];
     other_keys := [] |}.

(** [example_dated] with its two transactions in the other order. *)
Definition example_dated_swapped : PlaidData :=
  {| accounts := Some [example_account];
     transactions :=
       Some [ {| amount := Some (PyInt (-20)); date := None; category := None |};
              {| amount := Some (PyInt 50); date := Some "2024-01-15";
                 category := None |} ];
     other_keys := [] |}.

(** A card and a savings account, in both orders. *)
Definition savings_account : Account :=
  {| balances := Some {| current := Some (PyInt 1200); limit := None |};
     subtype := Some "savings";
     type := None |}.

Definition two_accounts : PlaidData :=
  {| accounts := Some [example_account; savings_account];
     transactions := transactions example_dated;
     other_keys := [] |}.

Definition two_accounts_swapped : PlaidData :=
  {| accounts := Some [savings_account; example_account];
     transactions := transactions example_dated;
     other_keys := [] |}.

(** The file of [env_with] named by the argument, with another file at the
    first default place. *)
Definition env_both (v other : pyvalue) : Environment :=
  {| argv1 := Some "plaid_user_data.json";
     fs := fun p => if String.eqb p "plaid_user_data.json" then Some (Document v)
                    else if String.eqb p "/opt/app/plaid_node/plaid_user_data.json"
                         then Some (Document other) else None;
     script_candidate := "/opt/app/plaid_node/plaid_user_data.json";
     cwd_candidate := "/opt/app/xai_engine/plaid_node/plaid_user_data.json" |}.

(** No argument, and a file at the second default place only. *)
Definition env_cwd (v : pyvalue) : Environment :=
  {| argv1 := None;
     fs := fun p =>
             if String.eqb p "/srv/app/xai_engine/plaid_node/plaid_user_data.json"
             then Some (Document v) else None;
     script_candidate := "/srv/app/plaid_node/plaid_user_data.json";
     cwd_candidate := "/srv/app/xai_engine/plaid_node/plaid_user_data.json" |}.

(** What a path that exists loads to: the document, or [None] when the file
    does not open or parse. *)
Definition file_value (f : file) : pyvalue :=
  match f with Document v => v | Unloadable => VNone end.

(** The value of an int, for sums of ints. *)
Definition int_value (x : pynum) : Z :=
  match x with PyInt z => z | PyFloat _ => 0 end.

Definition is_int (x : pynum) : Prop := exists z, x = PyInt z.

(** Both balances of the account are ints (or absent). *)
Definition whole_balances (acc : Account) : Prop :=
  is_int (balance_current acc) /\ is_int (balance_limit acc).

(** The floats [1.0] and [0.0]. *)
Definition float_one : Float64.float := S754_finite false 4503599627370496 (-52).
Definition float_zero : Float64.float := S754_zero false.

(** * The quest generator

    [generate_quests] of [train_and_generate_quests.py], the lines its
    [main] prints, and the endpoint [/generate-quests] of
    [generate_quests_api.py] that reads them back from the captured output. *)

Module Quests.

(** The literals [0.3] and [0.9]. *)
Definition lit_0_3 : Float64.float := S754_finite false 5404319552844595 (-54).
Definition lit_0_9 : Float64.float := S754_finite false 8106479329266893 (-53).

(** The entries of [user_row] that [generate_quests] reads; a row of the
    data frame holds numbers. *)
Record user_row : Type := {
  fast_food_spend : pynum;
  rent_paid_late : pynum;
  utilization : pynum;
  payment_history : pynum;
  is_student : pynum;
  test_score_avg : pynum;
  github_commits : pynum;
  dao_member : pynum;
  crypto_income : pynum;
  nft_income : pynum
}.

(** The truth value of a number: everything but zero (NaN included). *)
Definition nonzero (x : pynum) : bool :=
  match x with
  | PyInt z => negb (z =? 0)
  | PyFloat f => negb (Float64.is_zero f)
  end.

(** [if c: quests.append(q)] *)
Definition append_if (c : bool) (q : string) (quests : list string) : list string :=
  if c then quests ++ [q] else quests.

Definition generate_quests (row : user_row) : list string :=
  let quests := [] in
  let quests := append_if (py_gt (fast_food_spend row) (PyInt 200))
                  "Reduce fast food spending below $200/month" quests in
  let quests := append_if (nonzero (rent_paid_late row))
                  "Pay rent on time for 3 months" quests in
  let quests := append_if (py_gt (utilization row) (PyFloat lit_0_3))
                  "Reduce credit utilization below 30%" quests in
  let quests := append_if (py_lt (payment_history row) (PyFloat lit_0_9))
                  "Improve payment history above 90%" quests in
  let quests := append_if (nonzero (is_student row)
                           && py_lt (test_score_avg row) (PyInt 80))
                  "Increase test score average above 80" quests in
  let quests := append_if (py_lt (github_commits row) (PyInt 10))
                  "Connect GitHub and increase commits" quests in
  let quests := append_if (negb (nonzero (dao_member row)))
                  "Join a DAO for financial diversity" quests in
  let quests := append_if (py_lt (crypto_income row) (PyInt 500))
                  "Increase crypto income above $500" quests in
  let quests := append_if (py_lt (nft_income row) (PyInt 200))
                  "Increase NFT income above $200" quests in
  quests.

(** The line [print('-', q)] writes. *)
Definition quest_line (q : string) : string := "- " ++ q.

(** [line[2:]] *)
Definition from_third (line : string) : string :=
  substring 2 (String.length line - 2) line.

(** The loop of the endpoint over [result.stdout.splitlines()]. *)
Fixpoint parse_quests (quests : list string) (lines : list string) : list string :=
  match lines with
  | [] => quests
  | line :: rest =>
      parse_quests (if prefix "- " line then quests ++ [from_third line] else quests)
                   rest
  end.

(** [require_api_key]: the header [X-API-KEY], when present, equals the key. *)
Definition require_api_key (api_key : string) (header : option string) : bool :=
  match header with
  | Some key => String.eqb key api_key
  | None => false
  end.

(** The response of [/generate-quests]: status 401 with the error, or the
    quests. *)
Inductive quests_response : Type :=
| Unauthorized_401
| Quests_200 (quests : list string).

(** The endpoint, as a function of the request header and of the lines the
    script wrote. *)
Definition generate_quests_endpoint (api_key : string) (header : option string)
    (stdout_lines : list string) : quests_response :=
  if negb (require_api_key api_key header) then Unauthorized_401
  else Quests_200 (parse_quests [] stdout_lines).

(** The nine quests in the order of the tests. *)
Definition all_quests : list string :=
  [ "Reduce fast food spending below $200/month";
    "Pay rent on time for 3 months";
    "Reduce credit utilization below 30%";
    "Improve payment history above 90%";
    "Increase test score average above 80";
    "Connect GitHub and increase commits";
    "Join a DAO for financial diversity";
    "Increase crypto income above $500";
    "Increase NFT income above $200" ].

(** [xs] is [ys] with some elements left out. *)
Inductive subsequence {A : Type} : list A -> list A -> Prop :=
| sub_nil : subsequence [] []
| sub_keep x xs ys : subsequence xs ys -> subsequence (x :: xs) (x :: ys)
| sub_skip y xs ys : subsequence xs ys -> subsequence xs (y :: ys).

(** A row that calls for every quest but the student's: 442 spent on fast
    food, rent paid late, utilization 0.9, payment history 0.3. *)
Definition needy_row : user_row :=
  {| fast_food_spend := PyFloat (S754_finite false 7775746231631872 (-44));
     rent_paid_late := PyInt 1;
     utilization := PyFloat (S754_finite false 8106479329266893 (-53));
     payment_history := PyFloat (S754_finite false 5404319552844595 (-54));
     is_student := PyInt 0;
     test_score_avg := PyInt 0;
     github_commits := PyInt 3;
     dao_member := PyInt 0;
     crypto_income := PyInt 0;
     nft_income := PyInt 0 |}.

(** The lines around the quests in the output of the script. *)
Definition report_head : list string :=
  [ ""; "Sample user features:"; "utilization    0.9"; ""; "Recommended quests:" ].

End Quests.

(** * What a call takes from the interpreter

    Beside its argument the function reads nothing: no global, no clock, no
    random number, no file; and it only reads ([.get]) the object it is
    given, so a second call finds the object as the first one did.  One
    value it builds is laid out by the interpreter: the [set] of account
    kinds.  CPython keeps the elements of a set in the order of their
    hashes, and it salts the hashes of strings anew in every process, so two
    runs hold the same set in different orders.  [Interpreter] stands for
    that choice: [set_of xs] is any arrangement of the distinct elements of
    [xs]. *)

Record Interpreter : Type := {
  set_of : list string -> list string;
  set_of_NoDup : forall xs, NoDup (set_of xs);
  set_of_In : forall xs x, In x (set_of xs) <-> In x xs
}.

(** [set(acc.get('subtype', acc.get('type', '')) for acc in accounts)] as
    one interpreter holds it. *)
Definition account_types_in (py : Interpreter) (accs : list Account) : list string :=
  set_of py (map account_kind accs).

(** [len(account_types)] *)
Definition diversity_count_in (py : Interpreter) (accs : list Account) : Z :=
  len (account_types_in py accs).

(** The body of the function, run by the interpreter [py]. *)
Definition score_plaid_in (py : Interpreter) (d : PlaidData) : result ScoreResult :=
  let accs := get (accounts d) [] in
  let txs := get (transactions d) [] in
  balance <- total_balance accs ;;
  lim <- total_credit_limit accs ;;
  used <- total_credit_used accs ;;
  ph_score <- payment_history_score txs ;;
  ph_impact <- payment_history_impact ph_score ;;
  u <- utilization used lim ;;
  let '(u_score, u_impact) := utilization_band u in
  let count := diversity_count_in py accs in
  let '(d_score, d_impact) := diversity_band count in
  let i_score := income_stability_score txs in
  i_impact <- income_stability_impact i_score ;;
  age <- account_age txs ;;
  let '(a_score, a_impact) := age in
  let overall := (ph_impact + u_impact + d_impact + i_impact + a_impact) * 10 in
  f1 <- payment_history_factor (len (recent_txs txs)) ph_score ph_impact ;;
  f2 <- utilization_factor u u_impact ;;
  let f3 := diversity_factor count d_score d_impact in
  let f4 := income_factor i_score i_impact in
  let f5 := account_age_factor a_score a_impact in
  fico <- fico_equivalent overall ;;
  chain <- on_chain_score overall ;;
  Ok {| score := overall;
        factors := [f1; f2; f3; f4; f5];
        ficoEquivalent := fico;
        vcCount := 0;
        onChainScore := chain |}.

Definition calculate_factors_from_plaid_in (py : Interpreter) (plaid_data : pyvalue)
  : result ScoreResult :=
  match plaid_data with
  | VDict d => score_plaid_in py d
  | _ => Raise AttributeError_get
  end.

(** Two arguments carry the same ScoringInput: they are the same document,
    or two objects whose accounts and transactions, as the function reads
    them, are the same (the other keys may differ). *)
Definition same_scoring_input (a b : pyvalue) : Prop :=
  a = b \/
  exists da db, a = VDict da /\ b = VDict db /\
                t_accounts da = t_accounts db /\
                t_transactions da = t_transactions db.

(** Two interpreters: one holds a set in the order [nodup] leaves, the
    other in the reverse order. *)
Definition kept_order : Interpreter :=
  {| set_of := nodup string_dec;
     set_of_NoDup := NoDup_nodup string_dec;
     set_of_In := nodup_In string_dec |}.

Definition reverse_order : Interpreter :=
  {| set_of := fun xs => rev (nodup string_dec xs);
     set_of_NoDup := fun xs => NoDup_rev (NoDup_nodup string_dec xs);
     set_of_In := fun xs x =>
       iff_trans (iff_sym (in_rev (nodup string_dec xs) x))
                 (nodup_In string_dec xs x) |}.

(** [best_case] as a Plaid response carries it, with further keys. *)
Definition best_case_response : PlaidData :=
  {| accounts := accounts best_case;
     transactions := transactions best_case;
     other_keys := ["item"; "request_id"; "total_transactions"] |}.

(** * Rounding bounds for binary64

    The arithmetic of [SpecFloat] rounds an exact value that
    [binary_round_aux] receives as a truncated mantissa and a location.  The
    lemmas below bound the rounded result by any bound [K * 2^k] that is
    itself a float: rounding never crosses it. *)

Import Float64.

(** Side conditions on the exponent range. *)
Ltac exponent_range := unfold emin, emax, prec; simpl; lia.

(** One shift halves the mantissa and remembers whether a bit was lost. *)
Lemma shr_1_rel x : 0 <= shr_m x -> shr_rel 1 x (shr_1 x).
Proof.
  destruct x as [m r s]; simpl; intros Hm. unfold shr_rel, is_exact.
  change (2 ^ 1) with 2.
  destruct m as [|p|p]; [| |lia].
  - simpl. split; [reflexivity|]. destruct r, s; simpl; intuition congruence.
  - destruct p as [p|p|]; simpl shr_m; simpl loc_of_shr_record.
    + split.
      * rewrite Pos2Z.inj_xI. apply Z.div_unique with (r := 1); lia.
      * assert (Z.pos p~1 mod 2 = 1).
        { rewrite Pos2Z.inj_xI. symmetry. apply Z.mod_unique with (q := Z.pos p); lia. }
        destruct r, s; simpl; split; intros; try discriminate; lia.
    + split.
      * rewrite Pos2Z.inj_xO. apply Z.div_unique with (r := 0); lia.
      * assert (Z.pos p~0 mod 2 = 0).
        { rewrite Pos2Z.inj_xO. symmetry. apply Z.mod_unique with (q := Z.pos p); lia. }
        destruct r, s; simpl; split; intros; try discriminate; intuition congruence.
    + split; [reflexivity|].
      destruct r, s; simpl; split; intros; try discriminate; 
        match goal with H : _ /\ _ |- _ => destruct H as [_ H]; discriminate H end.
Qed.

(** Shifting keeps the mantissa non-negative. *)
Lemma shr_rel_nonneg n x r : 0 <= n -> 0 <= shr_m x -> shr_rel n x r -> 0 <= shr_m r.
Proof.
  intros Hn Hx [Hm _]. rewrite Hm. apply Z.div_pos; [lia|]. apply Z.pow_pos_nonneg; lia.
Qed.

(** Shifts compose. *)
Lemma shr_rel_trans a b x y z :
  0 <= a -> 0 <= b -> 0 <= shr_m x ->
  shr_rel a x y -> shr_rel b y z -> shr_rel (a + b) x z.
Proof.
  intros Ha Hb Hx [Hy Ey] [Hz Ez]. unfold shr_rel.
  assert (Pa : 0 < 2 ^ a) by (apply Z.pow_pos_nonneg; lia).
  assert (Pb : 0 < 2 ^ b) by (apply Z.pow_pos_nonneg; lia).
  rewrite Z.pow_add_r by lia. split.
  - rewrite Hz, Hy. apply Z.div_div; lia.
  - rewrite Ez, Ey, Hy. rewrite Z.rem_mul_r by lia.
    pose proof (Z.mod_pos_bound (shr_m x) (2 ^ a) Pa).
    pose proof (Z.mod_pos_bound (shr_m x / 2 ^ a) (2 ^ b) Pb).
    split.
    + intros [[E1 E2] E3]. split; [exact E1|]. rewrite E2, E3. lia.
    + intros [E1 E2].
      destruct (Z.eq_dec ((shr_m x / 2 ^ a) mod 2 ^ b) 0) as [E3|E3].
      * rewrite E3 in E2. split; [split; [exact E1|]|]; lia.
      * exfalso.
        assert (0 < 2 ^ a * ((shr_m x / 2 ^ a) mod 2 ^ b)) by (apply Z.mul_pos_pos; lia).
        lia.
Qed.

(** [p] shifts divide the mantissa by [2^p]. *)
Lemma iter_pos_shr_rel p : forall x,
  0 <= shr_m x -> shr_rel (Z.pos p) x (iter_pos shr_1 p x).
Proof.
  induction p as [p IH|p IH|]; intros x Hx; simpl iter_pos.
  - pose proof (shr_1_rel x Hx) as H1.
    pose proof (shr_rel_nonneg 1 _ _ ltac:(lia) Hx H1) as N1.
    pose proof (IH _ N1) as H2.
    pose proof (shr_rel_nonneg (Z.pos p) _ _ ltac:(lia) N1 H2) as N2.
    pose proof (IH _ N2) as H3.
    replace (Z.pos p~1) with (1 + (Z.pos p + Z.pos p)) by lia.
    eapply shr_rel_trans; [lia|lia|exact Hx|exact H1|].
    eapply shr_rel_trans; [lia|lia|exact N1|exact H2|exact H3].
  - pose proof (IH _ Hx) as H2.
    pose proof (shr_rel_nonneg (Z.pos p) _ _ ltac:(lia) Hx H2) as N2.
    pose proof (IH _ N2) as H3.
    replace (Z.pos p~0) with (Z.pos p + Z.pos p) by lia.
    eapply shr_rel_trans; [lia|lia|exact Hx|exact H2|exact H3].
  - apply shr_1_rel; exact Hx.
Qed.

Lemma shr_record_of_loc_m m l : shr_m (shr_record_of_loc m l) = m.
Proof. destruct l as [|[ | | ]]; reflexivity. Qed.

Lemma loc_of_shr_record_of_loc m l : loc_of_shr_record (shr_record_of_loc m l) = l.
Proof. destruct l as [|[ | | ]]; reflexivity. Qed.

(** [shr_fexp] divides the mantissa by a power of two that brings the
    exponent up to [fexp], and is exact iff no bit is lost. *)
Lemma shr_fexp_spec m e l :
  0 <= m ->
  exists n, 0 <= n /\
    snd (shr_fexp prec emax m e l) = e + n /\
    e + n = Z.max e (fexp prec emax (Zdigits2 m + e)) /\
    shr_m (fst (shr_fexp prec emax m e l)) = m / 2 ^ n /\
    (is_exact (fst (shr_fexp prec emax m e l)) <-> l = loc_Exact /\ m mod 2 ^ n = 0).
Proof.
  intros Hm. unfold shr_fexp, shr.
  destruct (fexp prec emax (Zdigits2 m + e) - e) as [|p|p] eqn:En.
  - exists 0. simpl fst; simpl snd. unfold is_exact.
    rewrite shr_record_of_loc_m, loc_of_shr_record_of_loc.
    change (2 ^ 0) with 1. rewrite Z.div_1_r, Z.mod_1_r. intuition lia.
  - exists (Z.pos p). simpl fst; simpl snd.
    pose proof (iter_pos_shr_rel p (shr_record_of_loc m l)) as H.
    rewrite shr_record_of_loc_m in H. destruct (H Hm) as [H1 H2].
    unfold is_exact in *.
    rewrite shr_record_of_loc_m in H1, H2. rewrite loc_of_shr_record_of_loc in H2.
    repeat split; try lia; try tauto.
  - exists 0. simpl fst; simpl snd. unfold is_exact.
    rewrite shr_record_of_loc_m, loc_of_shr_record_of_loc.
    change (2 ^ 0) with 1. rewrite Z.div_1_r, Z.mod_1_r. intuition lia.
Qed.

Lemma digits2_pos_size p : digits2_pos p = Pos.size p.
Proof. induction p; simpl; congruence. Qed.

(** [Zdigits2 m] is the bit length of [m]. *)
Lemma Zdigits2_bounds m :
  0 < m -> 2 ^ (Zdigits2 m - 1) <= m < 2 ^ Zdigits2 m.
Proof.
  destruct m as [|p|p]; try lia. intros _. simpl Zdigits2.
  rewrite digits2_pos_size.
  pose proof (Pos.size_gt p) as G. pose proof (Pos.size_le p) as L.
  apply Pos2Z.pos_lt_pos in G. apply Pos2Z.pos_le_pos in L.
  rewrite Pos2Z.inj_pow in G, L.
  replace (Z.pos (Pos.size p)) with (Z.pos (Pos.size p) - 1 + 1) in L by lia.
  rewrite Z.pow_add_r in L by lia. change (2 ^ 1) with 2 in L. lia.
Qed.

Lemma Zdigits2_nonneg m : 0 <= Zdigits2 m.
Proof. destruct m; simpl; lia. Qed.

(** A non-negative integer below [K * 2^(k-e)] needs an exponent of at most
    [k] once it is cut to 53 bits. *)
Lemma fexp_le_bound m e K k :
  0 <= m -> e <= k -> emin prec emax <= k -> Zdigits2 K <= prec ->
  m <= K * 2 ^ (k - e) ->
  fexp prec emax (Zdigits2 m + e) <= k.
Proof.
  intros Hm Hek Hmin HK Hle. unfold fexp.
  apply Z.max_lub; [|exact Hmin].
  destruct (Z.eq_dec m 0) as [->|Hm0]; [simpl; unfold prec; lia|].
  assert (HK0 : 0 < K).
  { destruct (Z_lt_le_dec 0 K) as [|HK0]; [assumption|exfalso].
    assert (0 <= 2 ^ (k - e)) by (apply Z.pow_nonneg; lia). nia. }
  pose proof (Zdigits2_bounds m ltac:(lia)) as [Lm _].
  pose proof (Zdigits2_bounds K HK0) as [_ UK].
  assert (P : 0 < 2 ^ (k - e)) by (apply Z.pow_pos_nonneg; lia).
  assert (S : 2 ^ (Zdigits2 m - 1) < 2 ^ (Zdigits2 K + (k - e))).
  { rewrite Z.pow_add_r by (pose proof (Zdigits2_nonneg K); lia). nia. }
  apply Z.pow_lt_mono_r_iff in S; [lia|lia|].
  pose proof (Zdigits2_nonneg K); lia.
Qed.

(** Rounding adds at most one, and nothing to an exact mantissa. *)
Lemma round_nearest_even_bounds m l :
  m <= round_nearest_even m l <= m + 1 /\
  (l = loc_Exact -> round_nearest_even m l = m).
Proof.
  destruct l as [|[ | | ]]; simpl; try (split; [lia|]; intros; congruence).
  destruct (Z.even m); split; try lia; intros; congruence.
Qed.

(** The main bound.  The exact value is [N / D * 2^e], given to
    [binary_round_aux] as the quotient [N / D] with a location that is exact
    iff [D] divides [N].  If the value is at most [K * 2^k], where [K] has at
    most 53 bits and [k] is an exponent in range, so is its rounding, which is
    then a zero or a finite float. *)
Lemma binary_round_aux_below sx N D e l K k :
  0 <= N -> 0 < D -> (l = loc_Exact <-> N mod D = 0) ->
  e <= k -> emin prec emax <= k <= emax - prec ->
  0 <= K -> Zdigits2 K <= prec ->
  N <= D * (K * 2 ^ (k - e)) ->
  below sx K k (binary_round_aux prec emax sx (N / D) e l).
Proof.
  intros HN HD Hl Hek [Hmin Hmax] HK HdK Hle.
  assert (Hm : 0 <= N / D) by (apply Z.div_pos; lia).
  assert (Hmle : N / D <= K * 2 ^ (k - e)) by (apply Z.div_le_upper_bound; lia).
  destruct (shr_fexp_spec (N / D) e l Hm) as (n1 & Hn1 & He1 & Hmax1 & Hm1 & Hx1).
  unfold binary_round_aux.
  destruct (shr_fexp prec emax (N / D) e l) as [r1 e1] eqn:E1.
  simpl fst in *; simpl snd in *.
  pose proof (fexp_le_bound _ _ _ _ Hm Hek Hmin HdK Hmle) as Hf1.
  assert (He1k : e1 <= k) by lia.
  assert (P1 : 0 < 2 ^ n1) by (apply Z.pow_pos_nonneg; lia).
  assert (Q1 : 0 < 2 ^ (k - e1)) by (apply Z.pow_pos_nonneg; lia).
  assert (Hsplit : 2 ^ (k - e) = 2 ^ n1 * 2 ^ (k - e1)).
  { rewrite <- Z.pow_add_r by lia. f_equal. lia. }
  set (K1 := K * 2 ^ (k - e1)).
  assert (HK1 : 0 <= K1) by (unfold K1; apply Z.mul_nonneg_nonneg; lia).
  assert (HNle : N <= (D * 2 ^ n1) * K1) by (unfold K1; rewrite Hsplit in Hle; lia).
  assert (Hm1' : shr_m r1 = N / (D * 2 ^ n1)) by (rewrite Hm1; apply Z.div_div; lia).
  assert (DP : 0 < D * 2 ^ n1) by (apply Z.mul_pos_pos; lia).
  assert (Hm1le : shr_m r1 <= K1) by (rewrite Hm1'; apply Z.div_le_upper_bound; lia).
  assert (Hm1pos : 0 <= shr_m r1) by (rewrite Hm1'; apply Z.div_pos; lia).
  set (m2 := round_nearest_even (shr_m r1) (loc_of_shr_record r1)).
  assert (Hm2 : 0 <= m2 <= K1).
  { destruct (round_nearest_even_bounds (shr_m r1) (loc_of_shr_record r1)) as [B X].
    fold m2 in B, X.
    destruct (Z.eq_dec (shr_m r1) K1) as [Heq|Hne]; [|lia].
    assert (HNeq : N = D * (2 ^ n1 * K1)).
    { pose proof (Z.mul_div_le N (D * 2 ^ n1) DP) as M.
      rewrite <- Hm1', Heq in M. lia. }
    assert (Hex : is_exact r1).
    { apply Hx1. split.
      - apply Hl. rewrite HNeq, Z.mul_comm. apply Z.mod_mul. lia.
      - rewrite HNeq. rewrite (Z.mul_comm D), Z.div_mul by lia.
        rewrite Z.mul_comm. apply Z.mod_mul. lia. }
    rewrite (X Hex). lia. }
  destruct (shr_fexp_spec m2 e1 loc_Exact (proj1 Hm2)) as (n2 & Hn2 & He2 & Hmax2 & Hm3 & _).
  destruct (shr_fexp prec emax m2 e1 loc_Exact) as [r2 e2] eqn:E2.
  simpl fst in *; simpl snd in *.
  assert (Hm2le : m2 <= K * 2 ^ (k - e1)) by (fold K1; lia).
  pose proof (fexp_le_bound _ _ _ _ (proj1 Hm2) He1k Hmin HdK Hm2le) as Hf2.
  assert (He2k : e2 <= k) by lia.
  assert (P2 : 0 < 2 ^ n2) by (apply Z.pow_pos_nonneg; lia).
  assert (Hsplit2 : 2 ^ (k - e1) = 2 ^ n2 * 2 ^ (k - e2)).
  { rewrite <- Z.pow_add_r by lia. f_equal. lia. }
  assert (Hm3le : shr_m r2 <= K * 2 ^ (k - e2)).
  { rewrite Hm3. apply Z.div_le_upper_bound; [lia|]. rewrite Hsplit2 in Hm2le. lia. }
  assert (Hm3pos : 0 <= shr_m r2) by (rewrite Hm3; apply Z.div_pos; lia).
  destruct (Z.leb_spec e2 (emax - prec)) as [L|L]; [|lia].
  destruct (shr_m r2) as [|p|p]; simpl; [reflexivity| |lia].
  repeat split; lia.
Qed.

(** The location of a quotient is exact iff the remainder is zero. *)
Lemma new_location_exact n r : new_location n r = loc_Exact <-> r = 0.
Proof.
  unfold new_location, new_location_even, new_location_odd.
  destruct (Z.even n); destruct (Z.eqb_spec r 0); split; intros; try congruence; try lia.
Qed.

(** Products of bounded non-negative floats are bounded. *)
Lemma mul_below Kx kx Ky ky x y :
  below false Kx kx x -> below false Ky ky y ->
  0 <= Kx -> 0 <= Ky -> Zdigits2 (Kx * Ky) <= prec ->
  emin prec emax <= kx + ky <= emax - prec ->
  below false (Kx * Ky) (kx + ky) (mul x y).
Proof.
  intros Hx Hy HKx HKy Hd Hk. unfold mul.
  destruct x as [sx| | |sx mx ex]; try contradiction;
    destruct y as [sy| | |sy my ey]; try contradiction; simpl in Hx, Hy.
  - subst; reflexivity.
  - destruct Hy as [-> _]; subst; reflexivity.
  - destruct Hx as [-> _]; subst; reflexivity.
  - destruct Hx as (-> & Hex & Hmx), Hy as (-> & Hey & Hmy).
    unfold SFmul. simpl xorb.
    rewrite <- (Z.div_1_r (Z.pos (mx * my))).
    apply binary_round_aux_below; try lia.
    + rewrite Z.mod_1_r. tauto.
    + rewrite Pos2Z.inj_mul.
      replace (kx + ky - (ex + ey)) with ((kx - ex) + (ky - ey)) by lia.
      rewrite Z.pow_add_r by lia.
      assert (0 < 2 ^ (kx - ex)) by (apply Z.pow_pos_nonneg; lia).
      assert (0 < 2 ^ (ky - ey)) by (apply Z.pow_pos_nonneg; lia).
      nia.
Qed.

(** Quotients of positive floats: [e'] ranges over the exponents the
    division may choose for the quotient. *)
Lemma div_below mx ex my ey K k :
  Z.min (fexp prec emax (Zdigits2 (Z.pos mx) + ex - (Zdigits2 (Z.pos my) + ey)))
        (ex - ey) <= k ->
  emin prec emax <= k <= emax - prec ->
  0 <= K -> Zdigits2 K <= prec ->
  (forall e', e' <= ex - ey -> e' <= k ->
     Z.pos mx * 2 ^ (ex - ey - e') <= Z.pos my * (K * 2 ^ (k - e'))) ->
  below false K k (div (S754_finite false mx ex) (S754_finite false my ey)).
Proof.
  intros He' Hk HK Hd Hle. unfold div, SFdiv, SFdiv_core_binary. simpl xorb.
  set (e' := Z.min _ _) in *.
  assert (Hs : 0 <= ex - ey - e') by (unfold e'; lia).
  set (m' := match ex - ey - e' with
             | 0 => Z.pos mx
             | Z.pos _ => Z.shiftl (Z.pos mx) (ex - ey - e')
             | Z.neg _ => 0
             end).
  assert (Hm' : m' = Z.pos mx * 2 ^ (ex - ey - e')).
  { unfold m'. destruct (ex - ey - e') as [|p|p] eqn:Es.
    - simpl. lia.
    - apply Z.shiftl_mul_pow2. lia.
    - lia. }
  pose proof (Z_div_mod_eq_full m' (Z.pos my)) as Hdm.
  unfold Z.div, Z.modulo in *.
  destruct (Z.div_eucl m' (Z.pos my)) as [q r] eqn:Eqr.
  assert (Hq : q = m' / Z.pos my) by (unfold Z.div; rewrite Eqr; reflexivity).
  assert (Hr : r = m' mod Z.pos my) by (unfold Z.modulo; rewrite Eqr; reflexivity).
  assert (Hm'0 : 0 <= m').
  { rewrite Hm'. apply Z.mul_nonneg_nonneg; [lia|]. apply Z.pow_nonneg; lia. }
  assert (Hbound : m' <= Z.pos my * (K * 2 ^ (k - e'))).
  { rewrite Hm'. apply Hle; lia. }
  rewrite Hq. apply binary_round_aux_below; try lia.
  rewrite new_location_exact, Hr. tauto.
Qed.

Lemma below_not_infinite sx K k f : below sx K k f -> is_infinite f = false.
Proof. destruct f; simpl; intros; try contradiction; reflexivity. Qed.

(** The correctly rounded quotient of two integers. *)
Lemma int_div_below a b K k :
  0 <= a -> 0 < b -> 0 <= k <= emax - prec -> 0 <= K -> Zdigits2 K <= prec ->
  a <= b * (K * 2 ^ k) ->
  below false K k (div (exact a) (exact b)).
Proof.
  intros Ha Hb Hk HK Hd Hle.
  destruct b as [|pb|pb]; try lia.
  destruct a as [|pa|pa]; try lia.
  - reflexivity.
  - simpl exact. apply div_below; try lia; try (unfold emin, emax, prec in *; lia).
    intros e' He' _. replace (0 - 0 - e') with (- e') by lia.
    replace (k - e') with (k + - e') by lia.
    rewrite Z.pow_add_r by lia.
    assert (0 < 2 ^ (- e')) by (apply Z.pow_pos_nonneg; lia).
    nia.
Qed.

Lemma fexp_mono a b : a <= b -> fexp prec emax a <= fexp prec emax b.
Proof. unfold fexp. lia. Qed.

(** A float up to 100 divided by [100.0] is at most 1. *)
Lemma div_hundred_below x :
  below false 100 0 x -> below false 1 0 (div x hundred).
Proof.
  destruct x as [s| | |s m e]; cbn [below]; try contradiction.
  - intros ->. reflexivity.
  - intros (-> & He & Hm). unfold hundred.
    assert (Hf : fexp prec emax (Zdigits2 (Z.pos m) + e) <= 0).
    { apply (fexp_le_bound (Z.pos m) e 100 0); try lia;
        try exponent_range. }
    apply div_below; try lia; try exponent_range.
    + change (Zdigits2 (Z.pos 7036874417766400)) with 53.
      pose proof (fexp_mono (Zdigits2 (Z.pos m) + e - (53 + -46))
                            (Zdigits2 (Z.pos m) + e) ltac:(lia)).
      lia.
    + intros e' He1 He2.
      change (Z.pos 7036874417766400) with (100 * 2 ^ 46).
      replace (e - -46 - e') with ((46 - e') - (0 - e)) by lia.
      replace (0 - e') with (- e') by lia.
      assert (P : 2 ^ (46 - e') = 2 ^ (46 - e' - (0 - e)) * 2 ^ (0 - e)).
      { rewrite <- Z.pow_add_r by lia. f_equal. lia. }
      assert (Q : 2 ^ (46 - e') = 2 ^ 46 * 2 ^ (- e')).
      { rewrite <- Z.pow_add_r by lia. reflexivity. }
      assert (B : 0 < 2 ^ (46 - e' - (0 - e))) by (apply Z.pow_pos_nonneg; lia).
      replace (100 * 2 ^ 46 * (1 * 2 ^ (- e'))) with (100 * 2 ^ (46 - e'))
        by (rewrite Q; ring).
      rewrite P.
      transitivity (100 * 2 ^ (0 - e) * 2 ^ (46 - e' - (0 - e))).
      * apply Z.mul_le_mono_nonneg_r; lia.
      * apply Z.eq_le_incl. ring.
Qed.

(** Truncating a bounded non-negative float. *)
Lemma py_int_below K f :
  0 <= K -> below false K 0 f ->
  exists t, py_int (PyFloat f) = Ok t /\ 0 <= t <= K.
Proof.
  intros HK. destruct f as [s| | |s m e]; cbn [below py_int]; try contradiction.
  - intros _. exists 0. split; [reflexivity|lia].
  - intros (-> & He & Hm).
    assert (P : 0 < 2 ^ (- e)) by (apply Z.pow_pos_nonneg; lia).
    replace (0 - e) with (- e) in Hm by lia.
    destruct (Z.leb_spec 0 e).
    + assert (e = 0) by lia. subst e. change (2 ^ (- 0)) with 1 in Hm.
      change (2 ^ 0) with 1.
      eexists; split; [reflexivity|lia].
    + eexists; split; [reflexivity|]. split.
      * apply Z.div_pos; lia.
      * apply Z.div_le_upper_bound; lia.
Qed.

(** * The scoring steps *)

(** A sequence that returns, returned at each step. *)
Lemma bind_ok {A B : Type} (c : result A) (k : A -> result B) (b : B) :
  bind c k = Ok b -> exists a, c = Ok a /\ k a = Ok b.
Proof. destruct c as [a|e]; simpl; [eauto|discriminate]. Qed.

Lemma len_nonneg {A : Type} (xs : list A) : 0 <= len xs.
Proof. unfold len. lia. Qed.

Lemma len_filter_le {A : Type} (p : A -> bool) (xs : list A) :
  len (filter p xs) <= len xs.
Proof.
  unfold len. apply Nat2Z.inj_le.
  induction xs as [|x xs IH]; simpl; [lia|]. destruct (p x); simpl; lia.
Qed.

Lemma hundred_below : below false 100 0 hundred.
Proof. cbn [below hundred]. repeat split; lia. Qed.

Lemma thirty_five_below : below false 35 0 thirty_five.
Proof. cbn [below thirty_five]. repeat split; lia. Qed.

(** The float constants are the roundings of the numbers they stand for. *)
Lemma float_constants :
  div (of_Z 85) (of_Z 100) = lit_0_85 /\
  of_Z 30 = thirty /\ of_Z 50 = fifty /\
  div (of_Z 221) (of_Z 2) = S754_finite false 7775746231631872 (-46) /\
  of_Z 500 = S754_finite false 8796093022208000 (-44) /\
  of_Z (10 ^ 308) = S754_finite false 5010420900022432 971.
Proof. repeat split; vm_compute; reflexivity. Qed.

Lemma float_of_int_100 : float_of_int 100 = Ok hundred.
Proof. reflexivity. Qed.

Lemma float_of_int_35 : float_of_int 35 = Ok thirty_five.
Proof. reflexivity. Qed.

(** [payment_history_score] never raises, and its value is 50, 100 or a
    float between 0 and 100. *)
Lemma payment_history_score_ok txs :
  exists s, payment_history_score txs = Ok s /\ score_shape s.
Proof.
  unfold payment_history_score.
  destruct (nonempty txs); [|exists (PyInt 50); split; [reflexivity|left; reflexivity]].
  pose proof (len_nonneg (recent_txs txs)) as H0.
  pose proof (len_filter_le (fun tx => py_ge (tx_amount tx) (PyInt 0)) txs) as H1.
  fold (recent_txs txs) in H1.
  set (r := len (recent_txs txs)) in *. set (n := Z.max 1 (len txs)).
  assert (Hq : below false 1 0 (div (exact r) (exact n))).
  { apply int_div_below; exponent_range. }
  unfold py_truediv.
  destruct (Z.eqb_spec n 0) as [E|_]; [lia|].
  rewrite (below_not_infinite _ _ _ _ Hq). cbn [bind].
  unfold py_mul. rewrite float_of_int_100. cbn [bind].
  assert (Hp : below false 100 0 (mul (div (exact r) (exact n)) hundred)).
  { apply (mul_below 1 0 100 0);
      [exact Hq|exact hundred_below| | | |]; exponent_range. }
  eexists. split; [reflexivity|]. unfold py_min.
  destruct (py_lt _ _); [right; right; eexists; split; [reflexivity|exact Hp]|right; left; reflexivity].
Qed.

(** [int(score)] of a payment-history score lies between 0 and 100. *)
Lemma score_shape_percentage s :
  score_shape s -> exists t, py_int s = Ok t /\ 0 <= t <= 100.
Proof.
  intros [->|[->|(f & -> & Hf)]].
  - exists 50. split; [reflexivity|lia].
  - exists 100. split; [reflexivity|lia].
  - apply py_int_below; [lia|exact Hf].
Qed.

(** The payment-history impact lies between 0 and 35. *)
Lemma payment_history_impact_ok s :
  score_shape s -> exists t, payment_history_impact s = Ok t /\ 0 <= t <= 35.
Proof.
  intros [->|[->|(f & -> & Hf)]].
  - exists 17. split; [reflexivity|lia].
  - exists 35. split; [reflexivity|lia].
  - unfold payment_history_impact, weighted_impact, py_truediv.
    rewrite float_of_int_100. cbn [bind]. unfold float_truediv.
    cbn [is_zero hundred]. cbn [bind].
    unfold py_mul. rewrite float_of_int_35. cbn [bind].
    apply py_int_below; [lia|].
    apply (mul_below 1 0 35 0);
      [apply div_hundred_below; exact Hf|exact thirty_five_below| | | |];
      exponent_range.
Qed.

(** The income impact is 10 on a score of 70 and 7 on a score of 50. *)
Lemma income_stability_impact_ok txs :
  let s := income_stability_score txs in
  (s = 70 /\ income_stability_impact s = Ok 10) \/
  (s = 50 /\ income_stability_impact s = Ok 7).
Proof.
  unfold income_stability_score. destruct (0 <? len (income_txs txs)).
  - left. split; reflexivity.
  - right. split; reflexivity.
Qed.

Lemma check_scaled_range :
  forallb check_scaled (map Z.of_nat (seq 28 65)) = true.
Proof. vm_compute. reflexivity. Qed.

(** For every sum of impacts the code can reach, the two derived scores are
    the exact integer parts of 85% and of a tenth of the overall score. *)
Lemma derived_scores s :
  28 <= s <= 92 ->
  fico_equivalent (s * 10) = Ok (s * 10 * 85 / 100) /\
  on_chain_score (s * 10) = Ok s.
Proof.
  intros Hs. pose proof check_scaled_range as H.
  rewrite forallb_forall in H.
  specialize (H s). unfold check_scaled in H.
  assert (Hin : In s (map Z.of_nat (seq 28 65))).
  { apply in_map_iff. exists (Z.to_nat s). split; [lia|]. apply in_seq. lia. }
  specialize (H Hin).
  destruct (fico_equivalent (s * 10)) as [f|]; [|discriminate].
  destruct (on_chain_score (s * 10)) as [c|]; [|discriminate].
  apply andb_true_iff in H. destruct H as [H1 H2].
  apply Z.eqb_eq in H1, H2. subst. split; reflexivity.
Qed.

Tactic Notation "bind_inv" hyp(H) "as" ident(a) ident(E) :=
  apply bind_ok in H; destruct H as (a & E & H).

(** A run that returns went through every step, and its result is built
    from the values of the steps. *)
Lemma score_plaid_trace d res :
  score_plaid d = Ok res -> exists t, trace_of d t /\ res = result_of d t.
Proof.
  unfold score_plaid. intros H.
  fold (t_accounts d) in H. fold (t_transactions d) in H.
  bind_inv H as bal Ebal. bind_inv H as lim Elim. bind_inv H as used Eused.
  bind_inv H as phs Ephs. bind_inv H as phi Ephi. bind_inv H as u Eu.
  destruct (utilization_band u) as [us ui] eqn:Eub.
  destruct (diversity_band (diversity_count (t_accounts d))) as [ds di] eqn:Ed.
  bind_inv H as ii Eii. bind_inv H as age Eage. destruct age as [asc ai].
  bind_inv H as f1 Ef1. bind_inv H as f2 Ef2.
  bind_inv H as fico Efico. bind_inv H as chain Echain.
  injection H as <-.
  exists {| t_balance := bal; t_limit := lim; t_used := used; t_score := phs;
            t_payment := phi; t_utilization := u; t_income := ii;
            t_age := (asc, ai); t_f1 := f1; t_f2 := f2; t_fico := fico;
            t_chain := chain |}.
  unfold trace_of, result_of, t_sum; cbn [t_balance t_limit t_used t_score t_payment
    t_utilization t_income t_age t_f1 t_f2 t_fico t_chain fst snd].
  rewrite Eub, Ed. cbn [fst snd].
  repeat split; assumption.
Qed.

(** Conversely, the values of the steps determine the result. *)
Lemma trace_score_plaid d t :
  trace_of d t -> score_plaid d = Ok (result_of d t).
Proof.
  intros (Ebal & Elim & Eused & Ephs & Ephi & Eu & Eii & Eage & Ef1 & Ef2 & Efico & Echain).
  unfold score_plaid. fold (t_accounts d). fold (t_transactions d).
  rewrite Ebal, Elim, Eused, Ephs. cbn [bind].
  rewrite Ephi, Eu. cbn [bind].
  unfold t_sum in Efico, Echain.
  destruct (utilization_band (t_utilization t)) as [us ui] eqn:Eub.
  destruct (diversity_band (diversity_count (t_accounts d))) as [ds di] eqn:Ed.
  rewrite Eii, Eage. cbn [bind]. destruct (t_age t) as [asc ai] eqn:Ea.
  cbn [fst snd] in *.
  rewrite Ef1, Ef2. cbn [bind]. rewrite Efico, Echain. cbn [bind].
  unfold result_of, t_sum. rewrite Eub, Ed, Ea. reflexivity.
Qed.

(** The four utilization bands, selected by strict comparisons. *)
Lemma utilization_band_cases u :
  (py_lt u (PyInt 30) = true /\ utilization_band u = (100, 30)) \/
  (py_lt u (PyInt 30) = false /\ py_lt u (PyInt 50) = true /\
   utilization_band u = (80, 24)) \/
  (py_lt u (PyInt 30) = false /\ py_lt u (PyInt 50) = false /\
   py_lt u (PyInt 70) = true /\ utilization_band u = (60, 18)) \/
  (py_lt u (PyInt 30) = false /\ py_lt u (PyInt 50) = false /\
   py_lt u (PyInt 70) = false /\ utilization_band u = (40, 12)).
Proof.
  unfold utilization_band.
  destruct (py_lt u (PyInt 30)); [left; auto|right].
  destruct (py_lt u (PyInt 50)); [left; auto|right].
  destruct (py_lt u (PyInt 70)); [left; auto|right; auto].
Qed.

Lemma utilization_band_impact u :
  In (snd (utilization_band u)) [30; 24; 18; 12].
Proof.
  destruct (utilization_band_cases u) as [(_ & ->)|[(_ & _ & ->)|[(_ & _ & _ & ->)|(_ & _ & _ & ->)]]];
    simpl; auto.
Qed.

Lemma diversity_band_cases c :
  In (diversity_band c) [(100, 10); (80, 8); (60, 6); (40, 4)].
Proof.
  unfold diversity_band.
  destruct (4 <=? c); [simpl; auto|].
  destruct (c =? 3); [simpl; auto|].
  destruct (c =? 2); simpl; auto.
Qed.

Lemma account_age_cases txs a :
  account_age txs = Ok a -> a = (70, 7) \/ a = (50, 5).
Proof.
  unfold account_age. destruct (nonempty txs).
  - destruct (py_min_strings (dated txs)); cbn [bind]; intros H; [|discriminate].
    injection H as <-. left; reflexivity.
  - intros H. injection H as <-. right; reflexivity.
Qed.

(** An exact comparison that finds [f] equal to [a] finds it below any
    larger integer. *)
Lemma compare_Z_eq_lt f a b :
  compare_Z f a = Some Eq -> a < b -> compare_Z f b = Some Lt.
Proof.
  destruct f as [s| | |s m e]; unfold compare_Z; try discriminate.
  - intros H Hab. assert (a = 0) by (destruct a; simpl in H; congruence). subst a.
    destruct b; try lia. reflexivity.
  - destruct s; discriminate.
  - intros H Hab. injection H as H. f_equal.
    destruct (0 <=? e) eqn:Ee.
    + apply Z.compare_eq in H. apply Z.compare_lt_iff. lia.
    + apply Z.compare_eq in H. apply Z.compare_lt_iff.
      apply Z.leb_gt in Ee.
      assert (0 < 2 ^ (- e)) by (apply Z.pow_pos_nonneg; lia).
      rewrite H. nia.
Qed.

Lemma py_eq_lt u a b :
  py_eq u (PyInt a) = true -> a < b ->
  py_lt u (PyInt a) = false /\ py_lt u (PyInt b) = true.
Proof.
  unfold py_eq, py_lt. destruct u as [z|f]; cbn [py_compare].
  - destruct (z ?= a) eqn:E; try discriminate. intros _ Hab.
    apply Z.compare_eq in E. subst z. split; [reflexivity|].
    apply Z.compare_lt_iff in Hab. rewrite Hab. reflexivity.
  - destruct (compare_Z f a) as [[ | | ]|] eqn:E; try discriminate. intros _ Hab.
    split; [reflexivity|]. rewrite (compare_Z_eq_lt f a b E Hab). reflexivity.
Qed.

(** What every run that returns satisfies. *)
Lemma trace_bounds d t :
  trace_of d t ->
  score_shape (t_score t) /\ 0 <= t_payment t <= 35 /\
  ((income_stability_score (t_transactions d) = 70 /\ t_income t = 10) \/
   (income_stability_score (t_transactions d) = 50 /\ t_income t = 7)) /\
  (t_age t = (70, 7) \/ t_age t = (50, 5)) /\
  28 <= t_sum d t <= 92.
Proof.
  intros (_ & _ & _ & Ephs & Ephi & _ & Eii & Eage & _).
  destruct (payment_history_score_ok (t_transactions d)) as (s & Es & Hs).
  rewrite Es in Ephs. injection Ephs as Es'. subst s.
  destruct (payment_history_impact_ok _ Hs) as (p & Ep & Hp).
  rewrite Ep in Ephi. injection Ephi as Ep'. subst p.
  pose proof (income_stability_impact_ok (t_transactions d)) as Hi.
  cbv zeta in Hi.
  assert (Hi' : (income_stability_score (t_transactions d) = 70 /\ t_income t = 10) \/
                (income_stability_score (t_transactions d) = 50 /\ t_income t = 7)).
  { destruct Hi as [[E1 E2]|[E1 E2]]; rewrite E2 in Eii; injection Eii as Ei; auto. }
  pose proof (account_age_cases _ _ Eage) as Ha.
  split; [exact Hs|]. split; [exact Hp|]. split; [exact Hi'|]. split; [exact Ha|].
  unfold t_sum.
  pose proof (utilization_band_impact (t_utilization t)) as Hu.
  pose proof (diversity_band_cases (diversity_count (t_accounts d))) as Hd.
  simpl in Hu, Hd.
  assert (Hd' : 4 <= snd (diversity_band (diversity_count (t_accounts d))) <= 10).
  { destruct Hd as [<-|[<-|[<-|[<-|[]]]]]; simpl; lia. }
  assert (Ha' : 5 <= snd (t_age t) <= 7).
  { destruct Ha as [->| ->]; simpl; lia. }
  assert (Hi'' : 7 <= t_income t <= 10) by lia.
  lia.
Qed.

(** * The scoring contract *)

(** Only a dict is scored. *)
Lemma calculate_dict v res :
  calculate_factors_from_plaid v = Ok res ->
  exists d, v = VDict d /\ score_plaid d = Ok res.
Proof.
  destruct v; simpl; try discriminate. intros H. eexists; split; [reflexivity|exact H].
Qed.

(** The fields of the first two factors. *)
Lemma payment_history_factor_fields n s imp f :
  payment_history_factor n s imp = Ok f ->
  name f = "Payment History" /\ impact f = imp /\ py_int s = Ok (percentage f).
Proof.
  unfold payment_history_factor. intros H.
  bind_inv H as pct E. injection H as <-. simpl. auto.
Qed.

Lemma utilization_factor_fields u imp f :
  utilization_factor u imp = Ok f ->
  name f = "Credit Utilization" /\ impact f = imp - 30 /\
  positive f = py_lt u (PyInt 30) /\
  (if py_gt u (PyInt 0) then py_int u else Ok 0) = Ok (percentage f).
Proof.
  unfold utilization_factor. intros H.
  bind_inv H as pct E. bind_inv H as shown E'. injection H as <-. simpl. auto.
Qed.

(** A number below an integer is below every larger integer. *)
Lemma py_lt_mono u a b :
  a <= b -> py_lt u (PyInt a) = true -> py_lt u (PyInt b) = true.
Proof.
  intros Hab. unfold py_lt. destruct u as [z|f]; cbn [py_compare].
  - destruct (Z.compare_spec z a); try discriminate. intros _.
    destruct (Z.compare_spec z b); try reflexivity; lia.
  - destruct f as [s| | |s m e]; unfold compare_Z; try (intros; assumption).
    + destruct (Z.compare_spec 0 a); try discriminate. intros _.
      destruct (Z.compare_spec 0 b); try reflexivity; lia.
    + destruct (0 <=? e) eqn:Ee.
      * destruct (Z.compare_spec ((if s then Z.neg m else Z.pos m) * 2 ^ e) a);
          try discriminate. intros _.
        destruct (Z.compare_spec ((if s then Z.neg m else Z.pos m) * 2 ^ e) b);
          try reflexivity; lia.
      * apply Z.leb_gt in Ee.
        assert (0 < 2 ^ (- e)) by (apply Z.pow_pos_nonneg; lia).
        destruct (Z.compare_spec (if s then Z.neg m else Z.pos m) (a * 2 ^ (- e)));
          try discriminate. intros _.
        destruct (Z.compare_spec (if s then Z.neg m else Z.pos m) (b * 2 ^ (- e)));
          try reflexivity; nia.
Qed.

Lemma example_dated_runs :
  calculate_factors_from_plaid (VDict example_dated) = Ok example_dated_result.
Proof. vm_compute. reflexivity. Qed.

(** C1: on every input the function processes, the overall score is ten
    times the sum of the five contributions taken before the display offsets
    (30, 10, 15 and 10) that the reported impacts of the last four factors
    carry; [ficoEquivalent] is the integer part of 85% of the overall score
    and [onChainScore] the integer part of its tenth. *)
Theorem overall_score_formula (plaid_data : pyvalue) (res : ScoreResult) :
  calculate_factors_from_plaid plaid_data = Ok res ->
  exists d t, plaid_data = VDict d /\ trace_of d t /\
    score res =
      (t_payment t + snd (utilization_band (t_utilization t))
       + snd (diversity_band (diversity_count (t_accounts d)))
       + t_income t + snd (t_age t)) * 10 /\
    map impact (factors res) =
      [ t_payment t;
        snd (utilization_band (t_utilization t)) - 30;
        snd (diversity_band (diversity_count (t_accounts d))) - 10;
        t_income t - 15;
        snd (t_age t) - 10 ] /\
    ficoEquivalent res = score res * 85 / 100 /\
    onChainScore res = score res / 10.
Proof.
  intros H. destruct (calculate_dict _ _ H) as (d & -> & Hd).
  destruct (score_plaid_trace _ _ Hd) as (t & Ht & ->).
  exists d, t. split; [reflexivity|]. split; [exact Ht|].
  pose proof (trace_bounds _ _ Ht) as (_ & _ & _ & _ & Hsum).
  destruct Ht as (_ & _ & _ & _ & _ & _ & _ & _ & Ef1 & Ef2 & Efico & Echain).
  apply payment_history_factor_fields in Ef1. destruct Ef1 as (_ & I1 & _).
  apply utilization_factor_fields in Ef2. destruct Ef2 as (_ & I2 & _).
  destruct (derived_scores _ Hsum) as [Df Dc].
  rewrite Df in Efico. rewrite Dc in Echain.
  injection Efico as Efico. injection Echain as Echain.
  unfold result_of. cbn [score factors ficoEquivalent onChainScore map impact
                         diversity_factor income_factor account_age_factor].
  rewrite I1, I2, <- Efico, <- Echain.
  repeat split; try reflexivity.
  rewrite Z.div_mul by lia. reflexivity.
Qed.

Lemma overall_score_formula_witness :
  calculate_factors_from_plaid (VDict example_dated) = Ok example_dated_result /\
  ficoEquivalent example_dated_result = score example_dated_result * 85 / 100 /\
  onChainScore example_dated_result = score example_dated_result / 10.
Proof.
  split; [exact example_dated_runs|].
  destruct (overall_score_formula _ _ example_dated_runs)
    as (d & t & _ & _ & _ & _ & Hf & Hc).
  split; [exact Hf|exact Hc].
Defined.

(** C5: every result has exactly five factors, named in the fixed order
    Payment History, Credit Utilization, Account Diversity, Income Stability,
    Account Age. *)
Theorem five_factors_in_order (plaid_data : pyvalue) (res : ScoreResult) :
  calculate_factors_from_plaid plaid_data = Ok res ->
  map name (factors res) = factor_names /\ List.length (factors res) = 5%nat.
Proof.
  intros H. destruct (calculate_dict _ _ H) as (d & -> & Hd).
  destruct (score_plaid_trace _ _ Hd) as (t & Ht & ->).
  destruct Ht as (_ & _ & _ & _ & _ & _ & _ & _ & Ef1 & Ef2 & _).
  apply payment_history_factor_fields in Ef1. destruct Ef1 as (N1 & _).
  apply utilization_factor_fields in Ef2. destruct Ef2 as (N2 & _).
  unfold result_of. cbn [factors map name diversity_factor income_factor
                         account_age_factor List.length].
  rewrite N1, N2. split; reflexivity.
Qed.

Lemma five_factors_in_order_witness :
  map name (factors example_dated_result) = factor_names /\
  List.length (factors example_dated_result) = 5%nat.
Proof. exact (five_factors_in_order _ _ example_dated_runs). Defined.

(** C2: utilization is [used / limit * 100] when the total limit is
    positive and 0 otherwise (so also when the limit is 0); strict
    comparisons map it to the bands (100,30), (80,24), (60,18), (40,12);
    a utilization of exactly 30, 50 or 70 falls into the next band; the
    factor reports the band impact minus 30 and is positive iff the
    utilization is below 30. *)
Theorem utilization_banding (plaid_data : pyvalue) (res : ScoreResult) :
  calculate_factors_from_plaid plaid_data = Ok res ->
  exists d t, plaid_data = VDict d /\ trace_of d t /\
    let u := t_utilization t in
    (py_gt (t_limit t) (PyInt 0) = true ->
       (ratio <- py_truediv (t_used t) (t_limit t) ;; py_mul ratio (PyInt 100)) = Ok u) /\
    (py_gt (t_limit t) (PyInt 0) = false -> u = PyInt 0) /\
    (t_limit t = PyInt 0 -> u = PyInt 0) /\
    (py_lt u (PyInt 30) = true -> utilization_band u = (100, 30)) /\
    (py_lt u (PyInt 30) = false -> py_lt u (PyInt 50) = true ->
       utilization_band u = (80, 24)) /\
    (py_lt u (PyInt 50) = false -> py_lt u (PyInt 70) = true ->
       utilization_band u = (60, 18)) /\
    (py_lt u (PyInt 70) = false -> utilization_band u = (40, 12)) /\
    (py_eq u (PyInt 30) = true -> utilization_band u = (80, 24)) /\
    (py_eq u (PyInt 50) = true -> utilization_band u = (60, 18)) /\
    (py_eq u (PyInt 70) = true -> utilization_band u = (40, 12)) /\
    exists f2, nth_error (factors res) 1 = Some f2 /\
      name f2 = "Credit Utilization" /\
      impact f2 = snd (utilization_band u) - 30 /\
      positive f2 = py_lt u (PyInt 30).
Proof.
  intros H. destruct (calculate_dict _ _ H) as (d & -> & Hd).
  destruct (score_plaid_trace _ _ Hd) as (t & Ht & ->).
  exists d, t. split; [reflexivity|]. split; [exact Ht|]. cbv zeta.
  destruct Ht as (_ & _ & _ & _ & _ & Eu & _ & _ & _ & Ef2 & _).
  apply utilization_factor_fields in Ef2. destruct Ef2 as (N2 & I2 & P2 & _).
  set (u := t_utilization t) in *.
  assert (M50 : py_lt u (PyInt 50) = false -> py_lt u (PyInt 30) = false).
  { intros A. destruct (py_lt u (PyInt 30)) eqn:B; [|reflexivity].
    rewrite (py_lt_mono u 30 50 ltac:(lia) B) in A. discriminate. }
  assert (M70 : py_lt u (PyInt 70) = false -> py_lt u (PyInt 50) = false).
  { intros A. destruct (py_lt u (PyInt 50)) eqn:B; [|reflexivity].
    rewrite (py_lt_mono u 50 70 ltac:(lia) B) in A. discriminate. }
  unfold utilization in Eu.
  repeat split.
  - intros G. rewrite G in Eu. exact Eu.
  - intros G. rewrite G in Eu. injection Eu as <-. reflexivity.
  - intros L. rewrite L in Eu. cbn in Eu. injection Eu as <-. reflexivity.
  - intros A. unfold utilization_band. rewrite A. reflexivity.
  - intros A B. unfold utilization_band. rewrite A, B. reflexivity.
  - intros A B. unfold utilization_band. rewrite (M50 A), A, B. reflexivity.
  - intros A. unfold utilization_band. rewrite (M50 (M70 A)), (M70 A), A. reflexivity.
  - intros A. destruct (py_eq_lt u 30 50 A ltac:(lia)) as [B C].
    unfold utilization_band. rewrite B, C. reflexivity.
  - intros A. destruct (py_eq_lt u 50 70 A ltac:(lia)) as [B C].
    unfold utilization_band. rewrite (M50 B), B, C. reflexivity.
  - intros A. destruct (py_eq_lt u 70 71 A ltac:(lia)) as [B _].
    unfold utilization_band. rewrite (M50 (M70 B)), (M70 B), B. reflexivity.
  - exists (t_f2 t). unfold result_of. cbn [factors nth_error]. auto.
Qed.

(** Used credit at exactly 30%, 50% and 70% of the limit. *)
Lemma utilization_boundary_examples :
  (u <- utilization (PyInt 300) (PyInt 1000) ;; Ok (u, utilization_band u))
    = Ok (PyFloat thirty, (80, 24)) /\
  (u <- utilization (PyInt 1) (PyInt 2) ;; Ok (u, utilization_band u))
    = Ok (PyFloat fifty, (60, 18)) /\
  (u <- utilization (PyInt 7) (PyInt 10) ;; Ok (py_eq u (PyInt 70), utilization_band u))
    = Ok (true, (40, 12)).
Proof. repeat split; vm_compute; reflexivity. Qed.

Lemma utilization_banding_witness :
  calculate_factors_from_plaid (VDict example_dated) = Ok example_dated_result /\
  exists f2, nth_error (factors example_dated_result) 1 = Some f2 /\
             name f2 = "Credit Utilization".
Proof.
  split; [exact example_dated_runs|].
  destruct (utilization_banding _ _ example_dated_runs)
    as (d & t & _ & _ & _ & _ & _ & _ & _ & _ & _ & _ & _ & _ & f2 & Hn & Hname & _).
  exists f2. split; [exact Hn|exact Hname].
Defined.

Lemma over_limit_runs :
  calculate_factors_from_plaid (VDict over_limit) = Ok over_limit_result.
Proof. vm_compute. reflexivity. Qed.

Lemma Ok_inj {A : Type} (a b : A) : Ok a = Ok b -> a = b.
Proof. intros H. injection H as H. exact H. Qed.

(** A positive number truncates to a non-negative integer. *)
Lemma py_int_positive u t :
  py_gt u (PyInt 0) = true -> py_int u = Ok t -> 0 <= t.
Proof.
  unfold py_gt. destruct u as [z|f]; cbn [py_compare py_int].
  - destruct (Z.compare_spec z 0); try discriminate. intros _ Ht.
    injection Ht as <-. lia.
  - destruct f as [s| | |s m e]; unfold compare_Z.
    + intros _ Ht. injection Ht as <-. lia.
    + intros _ Ht. discriminate Ht.
    + intros _ Ht. discriminate Ht.
    + intros Hc Ht. apply Ok_inj in Ht. subst t.
      assert (s = false).
      { destruct s; [|reflexivity]. exfalso.
        destruct (0 <=? e) eqn:Ee.
        - apply Z.leb_le in Ee.
          assert (0 < 2 ^ e) by (apply Z.pow_pos_nonneg; lia).
          destruct (Z.compare_spec (Z.neg m * 2 ^ e) 0); try discriminate; try nia.
        - destruct (Z.compare_spec (Z.neg m) (0 * 2 ^ (- e))); try discriminate; try lia. }
      subst s. destruct (0 <=? e) eqn:Ee.
      * apply Z.leb_le in Ee.
        assert (0 < 2 ^ e) by (apply Z.pow_pos_nonneg; lia).
        apply Z.mul_nonneg_nonneg; lia.
      * apply Z.leb_gt in Ee. apply Z.div_pos; [lia|]. apply Z.pow_pos_nonneg; lia.
Qed.

(** C8 as stated fails: a card drawn to twice its limit reports 200. *)
Lemma percentage_range_counterexample :
  exists res f,
    calculate_factors_from_plaid (VDict over_limit) = Ok res /\
    In f (factors res) /\ ~ (0 <= percentage f <= 100).
Proof.
  exists over_limit_result.
  exists {| name := "Credit Utilization"; impact := -18; percentage := 200;
            positive := false;
            explanation :=
              "Using 200% of available credit. High utilization is hurting your score." |}.
  split; [exact over_limit_runs|]. split.
  - simpl. right. left. reflexivity.
  - simpl. lia.
Qed.

(** C8, amended: every reported percentage is a non-negative integer; those
    of Payment History, Account Diversity, Income Stability and Account Age
    lie between 0 and 100; that of Credit Utilization is [int(utilization)]
    when the utilization is positive and 0 otherwise, without upper bound. *)
Theorem percentage_bounds (plaid_data : pyvalue) (res : ScoreResult) :
  calculate_factors_from_plaid plaid_data = Ok res ->
  Forall (fun f => 0 <= percentage f /\
                   (name f <> "Credit Utilization" -> percentage f <= 100))
         (factors res) /\
  exists d t f2, plaid_data = VDict d /\ trace_of d t /\
    nth_error (factors res) 1 = Some f2 /\
    (if py_gt (t_utilization t) (PyInt 0) then py_int (t_utilization t) else Ok 0)
      = Ok (percentage f2).
Proof.
  intros H. destruct (calculate_dict _ _ H) as (d & -> & Hd).
  destruct (score_plaid_trace _ _ Hd) as (t & Ht & ->).
  pose proof (trace_bounds _ _ Ht) as (Hs & _ & Hi & Ha & _).
  pose proof Ht as (_ & _ & _ & _ & _ & _ & _ & _ & Ef1 & Ef2 & _).
  apply payment_history_factor_fields in Ef1. destruct Ef1 as (N1 & _ & P1).
  apply utilization_factor_fields in Ef2. destruct Ef2 as (N2 & _ & _ & P2).
  destruct (score_shape_percentage _ Hs) as (p & Ep & Hp).
  rewrite Ep in P1. injection P1 as P1.
  split.
  - unfold result_of. cbn [factors].
    repeat (apply Forall_cons); [| | | | |apply Forall_nil].
    + rewrite <- P1. split; [lia|intros _; lia].
    + split; [|intros C; congruence].
      destruct (py_gt (t_utilization t) (PyInt 0)) eqn:G.
      * exact (py_int_positive _ _ G P2).
      * injection P2 as <-. lia.
    + cbn [diversity_factor percentage name].
      pose proof (diversity_band_cases (diversity_count (t_accounts d))) as Hb.
      simpl in Hb. destruct Hb as [<-|[<-|[<-|[<-|[]]]]]; simpl; split; try lia; intros _; lia.
    + cbn [income_factor percentage name]. split; [lia|intros _; lia].
    + cbn [account_age_factor percentage name].
      destruct Ha as [-> | ->]; simpl; split; try lia; intros _; lia.
  - exists d, t, (t_f2 t).
    split; [reflexivity|]. split; [exact Ht|]. split; [reflexivity|exact P2].
Qed.

Lemma percentage_bounds_witness :
  calculate_factors_from_plaid (VDict over_limit) = Ok over_limit_result /\
  Forall (fun f => 0 <= percentage f /\
                   (name f <> "Credit Utilization" -> percentage f <= 100))
         (factors over_limit_result).
Proof.
  split; [exact over_limit_runs|].
  exact (proj1 (percentage_bounds _ _ over_limit_runs)).
Defined.

(** The set of account kinds reaches the result through its size only: in
    whatever order the interpreter holds the elements, the count is the
    same. *)
Lemma diversity_count_any_order accs kinds :
  NoDup kinds -> (forall k, In k kinds <-> In k (map account_kind accs)) ->
  len kinds = diversity_count accs.
Proof.
  intros Hnd Hin. unfold diversity_count, account_types, len. f_equal.
  apply Permutation_length, NoDup_Permutation.
  - exact Hnd.
  - apply NoDup_nodup.
  - intros k. rewrite nodup_In. apply Hin.
Qed.

(** Every interpreter counts the same number of kinds. *)
Lemma diversity_count_in_any py accs :
  diversity_count_in py accs = diversity_count accs.
Proof.
  unfold diversity_count_in, account_types_in.
  apply diversity_count_any_order.
  - apply set_of_NoDup.
  - intros k. apply set_of_In.
Qed.

(** Run by any interpreter, the call does what [calculate_factors_from_plaid]
    does. *)
Lemma calculate_in_any py v :
  calculate_factors_from_plaid_in py v = calculate_factors_from_plaid v.
Proof.
  destruct v; try reflexivity.
  cbn [calculate_factors_from_plaid_in calculate_factors_from_plaid].
  unfold score_plaid_in, score_plaid. cbv zeta.
  rewrite diversity_count_in_any. reflexivity.
Qed.

(** The call reads its object through the two keys only. *)
Lemma score_plaid_reads d d' :
  t_accounts d = t_accounts d' -> t_transactions d = t_transactions d' ->
  score_plaid d = score_plaid d'.
Proof.
  intros Ha Ht. unfold score_plaid. cbv zeta.
  change (get (accounts d) []) with (t_accounts d).
  change (get (transactions d) []) with (t_transactions d).
  rewrite Ha, Ht. reflexivity.
Qed.

(** C9: two calls with the same ScoringInput give the same result, or raise
    the same exception, also when they run in two processes whose
    interpreters hold the set of account kinds in different orders, and
    whatever other keys the two objects carry: the result takes nothing from
    the interpreter's layout of the set but its size, and nothing from the
    object but its accounts and transactions. *)
Theorem scoring_deterministic (py1 py2 : Interpreter) (a b : pyvalue)
    (ra rb : result ScoreResult) :
  same_scoring_input a b ->
  calculate_factors_from_plaid_in py1 a = ra ->
  calculate_factors_from_plaid_in py2 b = rb ->
  ra = rb.
Proof.
  intros H <- <-. rewrite !calculate_in_any.
  destruct H as [->|(da & db & -> & -> & Ha & Ht)]; [reflexivity|].
  cbn [calculate_factors_from_plaid]. apply score_plaid_reads; assumption.
Qed.

Lemma scoring_deterministic_witness :
  account_types_in kept_order (t_accounts best_case)
    <> account_types_in reverse_order (t_accounts best_case) /\
  calculate_factors_from_plaid_in kept_order (VDict best_case) =
  calculate_factors_from_plaid_in reverse_order (VDict best_case_response).
Proof.
  split; [vm_compute; discriminate|].
  apply (scoring_deterministic kept_order reverse_order
           (VDict best_case) (VDict best_case_response) _ _).
  - right. exists best_case, best_case_response. repeat split; reflexivity.
  - reflexivity.
  - reflexivity.
Defined.

(** * Totality *)

(** Integer sums never raise and stay within the bounds of their terms. *)
Lemma sum_from_ints lo hi xs : forall a,
  Forall (int_between lo hi) xs ->
  exists s, sum_from (PyInt a) xs = Ok (PyInt s) /\
            a + len xs * lo <= s <= a + len xs * hi.
Proof.
  induction xs as [|x xs IH]; intros a Hall.
  - exists a. split; [reflexivity|]. unfold len. simpl. lia.
  - inversion Hall as [|? ? (z & -> & Hz) Hrest]; subst.
    cbn [sum_from py_add bind].
    destruct (IH (a + z) Hrest) as (s & Es & Hs).
    exists s. split; [exact Es|].
    unfold len in *. cbn [List.length]. rewrite Nat2Z.inj_succ. nia.
Qed.

Lemma int_balances_filter p accs :
  Forall int_balances accs -> Forall int_balances (filter p accs).
Proof.
  rewrite !Forall_forall. intros H x Hx. apply filter_In in Hx. apply H, Hx.
Qed.

Lemma total_balance_ints accs :
  Forall int_balances accs -> exists s, total_balance accs = Ok (PyInt s).
Proof.
  intros H. unfold total_balance, py_sum.
  destruct (sum_from_ints (- 2 ^ 63) (2 ^ 63) (map balance_current accs) 0) as (s & Es & _).
  - rewrite Forall_map. eapply Forall_impl; [|exact H].
    intros acc (c & l & Ec & _ & Hc & _). exists c. split; [exact Ec|lia].
  - exists s. exact Es.
Qed.

Lemma total_credit_limit_ints accs :
  Forall int_balances accs -> exists s, total_credit_limit accs = Ok (PyInt s).
Proof.
  intros H. unfold total_credit_limit, py_sum, credit_accounts.
  destruct (sum_from_ints (- 2 ^ 63) (2 ^ 63)
              (map balance_limit (filter is_credit_card accs)) 0) as (s & Es & _).
  - rewrite Forall_map. eapply Forall_impl; [|apply int_balances_filter; exact H].
    intros acc (c & l & _ & El & _ & Hl). exists l. split; [exact El|lia].
  - exists s. exact Es.
Qed.

Lemma total_credit_used_ints accs :
  Forall int_balances accs -> len accs <= 2 ^ 63 ->
  exists s, total_credit_used accs = Ok (PyInt s) /\ 0 <= s <= 2 ^ 126.
Proof.
  intros H Hn. unfold total_credit_used, py_sum, credit_accounts.
  set (used := filter _ (filter is_credit_card accs)).
  destruct (sum_from_ints 0 (2 ^ 63)
              (map (fun acc => py_abs (balance_current acc)) used) 0) as (s & Es & Hs).
  - rewrite Forall_map.
    eapply Forall_impl; [|apply int_balances_filter, int_balances_filter; exact H].
    intros acc (c & l & Ec & _ & Hc & _). exists (Z.abs c).
    rewrite Ec. split; [reflexivity|lia].
  - exists s. split; [exact Es|].
    assert (Hlen : len (map (fun acc => py_abs (balance_current acc)) used) <= len accs).
    { unfold len. rewrite length_map. apply Nat2Z.inj_le. unfold used.
      etransitivity; [apply filter_length_le|apply filter_length_le]. }
    pose proof (len_nonneg (map (fun acc => py_abs (balance_current acc)) used)).
    change (2 ^ 126) with (2 ^ 63 * 2 ^ 63). nia.
Qed.

Lemma below_py_int sx K k f :
  below sx K k f -> exists t, py_int (PyFloat f) = Ok t.
Proof.
  destruct f; cbn [below py_int]; intros H; try contradiction; eexists; reflexivity.
Qed.

(** With integer totals in range the utilization is 0 or a finite float. *)
Lemma utilization_ints used lim :
  0 <= used <= 2 ^ 126 ->
  exists u t, utilization (PyInt used) (PyInt lim) = Ok u /\ py_int u = Ok t.
Proof.
  intros Hu. unfold utilization, py_gt. cbn [py_compare].
  destruct (Z.compare_spec lim 0) as [E|E|E];
    try (exists (PyInt 0), 0; split; reflexivity).
  assert (Hq : below false 1 126 (div (exact used) (exact lim))).
  { apply int_div_below; exponent_range. }
  unfold py_truediv. destruct (Z.eqb_spec lim 0); [lia|].
  rewrite (below_not_infinite _ _ _ _ Hq). cbn [bind].
  unfold py_mul. rewrite float_of_int_100. cbn [bind].
  assert (Hp : below false 100 126 (mul (div (exact used) (exact lim)) hundred)).
  { apply (mul_below 1 126 100 0);
      [exact Hq|exact hundred_below| | | |]; exponent_range. }
  destruct (below_py_int _ _ _ _ Hp) as (t & Et).
  eexists; exists t. split; [reflexivity|exact Et].
Qed.

Lemma utilization_factor_ok u imp t :
  py_int u = Ok t -> exists f, utilization_factor u imp = Ok f.
Proof.
  intros E. unfold utilization_factor. rewrite E.
  destruct (py_gt u (PyInt 0)); cbn [bind]; eexists; reflexivity.
Qed.

Lemma account_age_ok txs :
  dates_usable txs -> exists a, account_age txs = Ok a.
Proof.
  intros [->|H]; [exists (50, 5); reflexivity|].
  unfold account_age. destruct (nonempty txs); [|eexists; reflexivity].
  destruct (dated txs); [congruence|]. eexists; reflexivity.
Qed.

(** Once the three totals are formed, the utilization is finite and the
    dates are usable, every step returns. *)
Lemma trace_exists d bal lim used u ut :
  total_balance (t_accounts d) = Ok bal ->
  total_credit_limit (t_accounts d) = Ok lim ->
  total_credit_used (t_accounts d) = Ok used ->
  utilization used lim = Ok u -> py_int u = Ok ut ->
  dates_usable (t_transactions d) ->
  exists t, trace_of d t /\ t_utilization t = u.
Proof.
  intros Ebal Elim Eused Eu Eut Hd.
  destruct (payment_history_score_ok (t_transactions d)) as (phs & Ephs & Hphs).
  destruct (payment_history_impact_ok _ Hphs) as (phi & Ephi & Hphi).
  destruct (account_age_ok _ Hd) as (age & Eage).
  destruct (score_shape_percentage _ Hphs) as (pct & Epct & _).
  destruct (utilization_factor_ok u (snd (utilization_band u)) ut Eut) as (f2 & Ef2).
  pose proof (income_stability_impact_ok (t_transactions d)) as Hi. cbv zeta in Hi.
  set (ii := if income_stability_score (t_transactions d) =? 70 then 10 else 7).
  assert (Eii : income_stability_impact (income_stability_score (t_transactions d)) = Ok ii
                /\ 7 <= ii <= 10).
  { unfold ii. destruct Hi as [[-> E]|[-> E]]; rewrite E; simpl; split; (reflexivity || lia). }
  destruct Eii as [Eii Hii].
  pose proof (utilization_band_impact u) as Hu.
  pose proof (diversity_band_cases (diversity_count (t_accounts d))) as Hdb.
  pose proof (account_age_cases _ _ Eage) as Ha.
  set (total := phi + snd (utilization_band u)
                + snd (diversity_band (diversity_count (t_accounts d)))
                + ii + snd age).
  assert (Ht : 28 <= total <= 92).
  { unfold total. simpl in Hu, Hdb.
    assert (4 <= snd (diversity_band (diversity_count (t_accounts d))) <= 10)
      by (destruct Hdb as [<-|[<-|[<-|[<-|[]]]]]; simpl; lia).
    assert (5 <= snd age <= 7) by (destruct Ha as [->| ->]; simpl; lia).
    lia. }
  destruct (derived_scores _ Ht) as [Ef Ec].
  exists {| t_balance := bal; t_limit := lim; t_used := used;
            t_score := phs; t_payment := phi; t_utilization := u; t_income := ii;
            t_age := age;
            t_f1 := {| name := "Payment History"; impact := phi; percentage := pct;
                       positive := 30 <=? phi;
                       explanation :=
                         "You have " ++ str_of_int (len (recent_txs (t_transactions d)))
                         ++ " positive transactions. "
                         ++ (if py_ge phs (PyInt 90) then "Excellent consistency!"
                             else "Good payment history.") |};
            t_f2 := f2; t_fico := total * 10 * 85 / 100; t_chain := total |}.
  unfold trace_of, t_sum.
  cbn [t_balance t_limit t_used t_score t_payment t_utilization t_income t_age
       t_f1 t_f2 t_fico t_chain].
  fold total.
  repeat split; try assumption.
  unfold payment_history_factor. rewrite Epct. reflexivity.
Qed.

(** Integer balances in range give totals and a finite utilization. *)
Lemma trace_exists_ints d :
  Forall int_balances (t_accounts d) -> len (t_accounts d) <= 2 ^ 63 ->
  dates_usable (t_transactions d) ->
  exists t, trace_of d t.
Proof.
  intros Hb Hn Hd.
  destruct (total_balance_ints _ Hb) as (bal & Ebal).
  destruct (total_credit_limit_ints _ Hb) as (lim & Elim).
  destruct (total_credit_used_ints _ Hb Hn) as (used & Eused & Hused).
  destruct (utilization_ints used lim Hused) as (u & ut & Eu & Eut).
  destruct (trace_exists d _ _ _ _ _ Ebal Elim Eused Eu Eut Hd) as (t & Ht & _).
  exists t. exact Ht.
Qed.

Lemma huge_balance_raises :
  calculate_factors_from_plaid (VDict huge_balance) = Raise OverflowError_int_inf.
Proof. vm_compute. reflexivity. Qed.

(** C3 as stated fails: a balance of [-1e308] on a card of limit 1 makes the
    utilization infinite, and [int] of it raises. *)
Lemma scoring_total_counterexample :
  ~ (exists res, calculate_factors_from_plaid (VDict huge_balance) = Ok res).
Proof. intros (res & H). rewrite huge_balance_raises in H. discriminate H. Qed.

(** C3, amended: the function returns a result, raising nothing, whenever
    the three account totals can be formed, the utilization is a finite
    number and the transactions are none or include one with a non-empty
    date; this covers every input whose balances are integers of 64-bit
    magnitude (at most 2^63 accounts); without accounts and transactions the
    payment-history score is 50, the utilization 0 and the diversity count
    0. *)
Theorem scoring_total :
  (forall d bal lim used u shown,
     total_balance (t_accounts d) = Ok bal ->
     total_credit_limit (t_accounts d) = Ok lim ->
     total_credit_used (t_accounts d) = Ok used ->
     utilization used lim = Ok u -> py_int u = Ok shown ->
     dates_usable (t_transactions d) ->
     exists res, calculate_factors_from_plaid (VDict d) = Ok res) /\
  (forall d,
     Forall int_balances (t_accounts d) -> len (t_accounts d) <= 2 ^ 63 ->
     dates_usable (t_transactions d) ->
     exists res, calculate_factors_from_plaid (VDict d) = Ok res) /\
  (forall d,
     t_accounts d = [] -> t_transactions d = [] ->
     exists t, trace_of d t /\
       calculate_factors_from_plaid (VDict d) = Ok (result_of d t) /\
       t_score t = PyInt 50 /\ t_utilization t = PyInt 0 /\
       diversity_count (t_accounts d) = 0).
Proof.
  split; [|split].
  - intros d bal lim used u shown Ebal Elim Eused Eu Eshown Hd.
    destruct (trace_exists d _ _ _ _ _ Ebal Elim Eused Eu Eshown Hd) as (t & Ht & _).
    exists (result_of d t). apply trace_score_plaid. exact Ht.
  - intros d Hb Hn Hd. destruct (trace_exists_ints d Hb Hn Hd) as (t & Ht).
    exists (result_of d t). apply trace_score_plaid. exact Ht.
  - intros d Ea Et.
    assert (Hb : Forall int_balances (t_accounts d)) by (rewrite Ea; constructor).
    assert (Hn : len (t_accounts d) <= 2 ^ 63) by (rewrite Ea; vm_compute; discriminate).
    assert (Hd : dates_usable (t_transactions d)) by (left; exact Et).
    destruct (trace_exists_ints d Hb Hn Hd) as (t & Ht).
    exists t. split; [exact Ht|]. split; [apply trace_score_plaid; exact Ht|].
    destruct Ht as (_ & Elim & Eused & Ephs & _ & Eu & _).
    rewrite Ea in Elim, Eused. rewrite Et in Ephs.
    apply Ok_inj in Elim, Eused, Ephs.
    rewrite <- Elim, <- Eused in Eu. apply Ok_inj in Eu.
    rewrite Ea. repeat split; auto.
Qed.

Lemma scoring_total_witness :
  (exists res, calculate_factors_from_plaid (VDict float_balances) = Ok res) /\
  (exists res, calculate_factors_from_plaid (VDict example_dated) = Ok res) /\
  (exists t, trace_of empty_lists t /\ t_score t = PyInt 50 /\
             t_utilization t = PyInt 0).
Proof.
  destruct scoring_total as (General & Ints & Empty).
  split; [|split].
  - refine (General float_balances (PyFloat (S754_finite true 7775746231631872 (-46)))
              (PyFloat (S754_finite false 8796093022208000 (-44)))
              (PyFloat (S754_finite false 7775746231631872 (-46)))
              (PyFloat (S754_finite false 6220596985305498 (-48))) 22 _ _ _ _ _ _);
      try (vm_compute; reflexivity).
    right. vm_compute. discriminate.
  - refine (Ints example_dated _ _ _).
    + constructor; [|constructor].
      exists (-300), 1000. repeat split; vm_compute; discriminate.
    + vm_compute. discriminate.
    + right. vm_compute. discriminate.
  - destruct (Empty empty_lists eq_refl eq_refl) as (t & Ht & _ & Es & Eu & _).
    exists t. split; [exact Ht|]. split; [exact Es|exact Eu].
Defined.

(** * The end-to-end example *)

(** C4: on the example the intermediate values are the stated ones (used
    credit 300, utilization exactly 30.0 in the band (80, 24), payment-history
    score 50.0 with impact 17), but the transactions carry no date, [min] gets
    an empty sequence and the call raises [ValueError] instead of returning
    the factor list. *)
Theorem example_raises :
  total_credit_used [example_account] = Ok (PyInt 300) /\
  total_credit_limit [example_account] = Ok (PyInt 1000) /\
  utilization (PyInt 300) (PyInt 1000) = Ok (PyFloat thirty) /\
  py_eq (PyFloat thirty) (PyInt 30) = true /\
  utilization_band (PyFloat thirty) = (80, 24) /\
  payment_history_score example_transactions = Ok (PyFloat fifty) /\
  py_eq (PyFloat fifty) (PyInt 50) = true /\
  payment_history_impact (PyFloat fifty) = Ok 17 /\
  dated example_transactions = [] /\
  account_age example_transactions = Raise ValueError_min_empty /\
  calculate_factors_from_plaid (VDict example_input) = Raise ValueError_min_empty.
Proof. repeat split; vm_compute; reflexivity. Qed.

(** * The command-line entry point *)

Lemma Some_inj {A : Type} (a b : A) : Some a = Some b -> a = b.
Proof. intros H. injection H as H. exact H. Qed.

Lemma input_missing_load env :
  input_missing env -> load_plaid_data env (argv1 env) = VNone.
Proof.
  unfold input_missing, load_plaid_data, exists_path, try_load. cbv zeta.
  destruct (negb (get (argv1 env) "" =? "")%string).
  - intros [H|H]; rewrite H; reflexivity.
  - destruct (fs env (script_candidate env)) as [f1|] eqn:E1.
    + rewrite E1. intros H. apply Some_inj in H. subst f1. reflexivity.
    + destruct (fs env (cwd_candidate env)) as [f2|] eqn:E2.
      * intros H. apply Some_inj in H. subst f2. reflexivity.
      * intros [H|H]; rewrite H; reflexivity.
Qed.

Lemma main_falsy str env :
  truthy (load_plaid_data env (argv1 env)) = false ->
  main str env = fallback_outcome.
Proof. intros H. unfold main. rewrite H. reflexivity. Qed.

(** C6: when the input is absent or does not load, the program prints the
    fixed default result (score 674, the five canned factors, FICO 720,
    on-chain 68) and exits with status 0. *)
Theorem fallback_default (str : exn -> string) (env : Environment) :
  input_missing env ->
  main str env = fallback_outcome /\
  error (stdout fallback_outcome) = None /\
  exit_status fallback_outcome = 0 /\
  score default_analysis = 674 /\
  map name (factors default_analysis) = factor_names /\
  map impact (factors default_analysis) = [35; -20; 10; -10; 15] /\
  map percentage (factors default_analysis) = [92; 65; 60; 55; 70] /\
  ficoEquivalent default_analysis = 720 /\
  onChainScore default_analysis = 68.
Proof.
  intros H. split.
  - apply main_falsy. rewrite (input_missing_load env H). reflexivity.
  - repeat split.
Qed.

Lemma fallback_default_witness :
  input_missing env_bare /\ main sample_str env_bare = fallback_outcome.
Proof.
  assert (H : input_missing env_bare) by (left; reflexivity).
  split; [exact H|]. exact (proj1 (fallback_default sample_str env_bare H)).
Defined.

(** C7: an exception raised by the scoring is caught by [main], which prints
    the error response (the default score fields 674, 720 and 68, the message
    under [error], one factor whose explanation names the error) and exits
    with status 1; the exit status is non-zero in exactly that case. *)
Theorem internal_error_response (str : exn -> string) (env : Environment) :
  let plaid_data := load_plaid_data env (argv1 env) in
  (exit_status (main str env) <> 0 <->
   truthy plaid_data = true /\
   exists e, calculate_factors_from_plaid plaid_data = Raise e) /\
  (forall e,
     truthy plaid_data = true ->
     calculate_factors_from_plaid plaid_data = Raise e ->
     main str env = {| stdout := error_response str e; exit_status := 1 |} /\
     error (error_response str e) = Some (str e) /\
     score (analysis (error_response str e)) = 674 /\
     ficoEquivalent (analysis (error_response str e)) = 720 /\
     onChainScore (analysis (error_response str e)) = 68 /\
     factors (analysis (error_response str e)) =
       [ {| name := "Payment History"; impact := 35; percentage := 92;
            positive := true;
            explanation :=
              "XAI analysis error: " ++ str e ++ ". Please check server logs." |} ]).
Proof.
  cbv zeta. split.
  - unfold main. destruct (truthy (load_plaid_data env (argv1 env))); cbn [negb].
    + destruct (calculate_factors_from_plaid (load_plaid_data env (argv1 env))) as [r|e];
        cbn [exit_status]; split.
      * intros H. exfalso. apply H. reflexivity.
      * intros (_ & e & H). discriminate H.
      * intros _. split; [reflexivity|]. exists e. reflexivity.
      * intros _. discriminate.
    + cbn [exit_status]. split.
      * intros H. exfalso. apply H. reflexivity.
      * intros (H & _). discriminate H.
  - intros e Ht He. unfold main. rewrite Ht, He. cbn [negb].
    repeat split.
Qed.

Lemma internal_error_response_witness :
  main sample_str (env_with (VDict example_input)) =
    {| stdout := error_response sample_str ValueError_min_empty; exit_status := 1 |} /\
  exit_status (main sample_str (env_with (VDict example_input))) <> 0.
Proof.
  pose proof (internal_error_response sample_str (env_with (VDict example_input)))
    as [Hiff Hall].
  assert (Ht : truthy (load_plaid_data (env_with (VDict example_input))
                         (argv1 (env_with (VDict example_input)))) = true)
    by (vm_compute; reflexivity).
  assert (He : calculate_factors_from_plaid
                 (load_plaid_data (env_with (VDict example_input))
                    (argv1 (env_with (VDict example_input))))
               = Raise ValueError_min_empty)
    by (vm_compute; reflexivity).
  split.
  - exact (proj1 (Hall _ Ht He)).
  - apply Hiff. split; [exact Ht|]. exists ValueError_min_empty. exact He.
Defined.

(** C10: [main] tells missing from present input by truthiness: every parsed
    document that is false as a condition, the empty object among them, gets
    the fallback result (674) and exit status 0 instead of the score computed
    from no accounts and no transactions (630), while the object with empty
    [accounts] and [transactions] lists is scored. *)
Theorem falsy_input_is_missing (str : exn -> string) (env : Environment) :
  let plaid_data := load_plaid_data env (argv1 env) in
  (truthy plaid_data = false -> main str env = fallback_outcome) /\
  (In plaid_data [VNone; VBool false; VNum (PyInt 0); VStr ""; VList [];
                  VDict empty_dict] ->
   main str env = fallback_outcome) /\
  (plaid_data = VDict empty_lists ->
   main str env = {| stdout := {| error := None; analysis := empty_result |};
                     exit_status := 0 |}) /\
  calculate_factors_from_plaid (VDict empty_dict) = Ok empty_result /\
  score empty_result = 630 /\ score default_analysis = 674.
Proof.
  cbv zeta. split; [apply main_falsy|]. split; [|split].
  - intros H. apply main_falsy.
    simpl in H. destruct H as [<-|[<-|[<-|[<-|[<-|[<-|[]]]]]]]; reflexivity.
  - intros H. unfold main. rewrite H. reflexivity.
  - split; [vm_compute; reflexivity|]. split; reflexivity.
Qed.

Lemma falsy_input_is_missing_witness :
  main sample_str (env_with (VDict empty_dict)) = fallback_outcome /\
  main sample_str (env_with (VDict empty_lists)) =
    {| stdout := {| error := None; analysis := empty_result |}; exit_status := 0 |}.
Proof.
  split.
  - apply (proj1 (proj2 (falsy_input_is_missing sample_str (env_with (VDict empty_dict))))).
    simpl. right; right; right; right; right; left. reflexivity.
  - apply (proj1 (proj2 (proj2
             (falsy_input_is_missing sample_str (env_with (VDict empty_lists)))))).
    reflexivity.
Defined.

(** * Further properties of the scoring

    What the code shows beyond the statements above: the range of the
    results, how the displayed fields hang together, what the order of the
    input changes, and how [main] reaches its data. *)

(** The payment-history score is 50 without transactions. *)
Lemma payment_history_none txs s :
  txs = [] -> payment_history_score txs = Ok s -> s = PyInt 50.
Proof. intros -> H. apply Ok_inj in H. symmetry. exact H. Qed.

(** With transactions the account age is the placeholder (70, 7). *)
Lemma account_age_some txs a :
  txs <> [] -> account_age txs = Ok a -> a = (70, 7).
Proof.
  unfold account_age. destruct txs as [|tx txs]; [congruence|]. intros _.
  cbn [nonempty]. destruct (py_min_strings _); cbn [bind]; intros H; [|discriminate].
  apply Ok_inj in H. symmetry. exact H.
Qed.

(** The sum of the five contributions is at least 30. *)
Lemma trace_sum_lower d t : trace_of d t -> 30 <= t_sum d t.
Proof.
  intros Ht. pose proof (trace_bounds _ _ Ht) as (_ & Hp & Hi & Ha & _).
  destruct Ht as (_ & _ & _ & Ephs & Ephi & _ & _ & Eage & _).
  unfold t_sum.
  pose proof (utilization_band_impact (t_utilization t)) as Hu.
  pose proof (diversity_band_cases (diversity_count (t_accounts d))) as Hd.
  simpl in Hu, Hd.
  assert (4 <= snd (diversity_band (diversity_count (t_accounts d))))
    by (destruct Hd as [<-|[<-|[<-|[<-|[]]]]]; simpl; lia).
  assert (7 <= t_income t) by lia.
  destruct (t_transactions d) as [|tx txs] eqn:Etx.
  - apply Ok_inj in Ephs. rewrite <- Ephs in Ephi.
    assert (E17 : payment_history_impact (PyInt 50) = Ok 17) by reflexivity.
    rewrite E17 in Ephi. apply Ok_inj in Ephi.
    assert (E5 : account_age [] = Ok (50, 5)) by reflexivity.
    rewrite E5 in Eage. apply Ok_inj in Eage. rewrite <- Eage. simpl. lia.
  - assert (Hne : tx :: txs <> []) by discriminate.
    rewrite (account_age_some _ _ Hne Eage). simpl. lia.
Qed.

(** A call that returns is a run through the steps of a dict. *)
Lemma calculate_trace v res :
  calculate_factors_from_plaid v = Ok res ->
  exists d t, v = VDict d /\ trace_of d t /\ res = result_of d t.
Proof.
  intros H. destruct (calculate_dict _ _ H) as (d & -> & Hd).
  destruct (score_plaid_trace _ _ Hd) as (t & Ht & ->).
  exists d, t. auto.
Qed.

(** The two derived scores of a run. *)
Lemma trace_derived d t :
  trace_of d t ->
  t_fico t = t_sum d t * 10 * 85 / 100 /\ t_chain t = t_sum d t.
Proof.
  intros Ht. pose proof (trace_bounds _ _ Ht) as (_ & _ & _ & _ & Hs).
  destruct Ht as (_ & _ & _ & _ & _ & _ & _ & _ & _ & _ & Ef & Ec).
  destruct (derived_scores _ Hs) as [Df Dc].
  rewrite Df in Ef. rewrite Dc in Ec. apply Ok_inj in Ef, Ec. auto.
Qed.

(** X1: every result has a score between 300 and 920 that is a multiple of
    10, an on-chain score between 30 and 92 and a FICO equivalent between
    255 and 782; both ends of the score range are reached. *)
Theorem score_range :
  (forall plaid_data res,
     calculate_factors_from_plaid plaid_data = Ok res ->
     300 <= score res <= 920 /\ score res mod 10 = 0 /\
     30 <= onChainScore res <= 92 /\ 255 <= ficoEquivalent res <= 782) /\
  (exists res, calculate_factors_from_plaid (VDict worst_case) = Ok res /\
               score res = 300) /\
  (exists res, calculate_factors_from_plaid (VDict best_case) = Ok res /\
               score res = 920).
Proof.
  split; [|split].
  - intros v res H.
    destruct (calculate_trace v res H) as (d & t & -> & Ht & ->).
    pose proof (trace_bounds _ _ Ht) as (_ & _ & _ & _ & Hs).
    pose proof (trace_sum_lower _ _ Ht) as Hl.
    destruct (trace_derived _ _ Ht) as [Ef Ec].
    unfold result_of. cbn [score onChainScore ficoEquivalent].
    rewrite Ef, Ec. rewrite Z.mod_mul by lia.
    repeat split; try lia.
    + apply Z.div_le_lower_bound; lia.
    + apply Z.div_le_upper_bound; lia.
  - eexists. split; [vm_compute; reflexivity|reflexivity].
  - eexists. split; [vm_compute; reflexivity|reflexivity].
Qed.

Lemma score_range_witness :
  calculate_factors_from_plaid (VDict example_dated) = Ok example_dated_result /\
  300 <= score example_dated_result <= 920 /\
  score example_dated_result mod 10 = 0.
Proof.
  split; [exact example_dated_runs|].
  destruct (proj1 score_range _ _ example_dated_runs) as (R & M & _).
  split; [exact R|exact M].
Defined.

(** ** The displayed factors *)

Lemma payment_history_factor_flag n s imp f :
  payment_history_factor n s imp = Ok f -> positive f = (30 <=? imp).
Proof.
  unfold payment_history_factor. intros H.
  bind_inv H as pct E. apply Ok_inj in H. subst f. reflexivity.
Qed.

(** The band of a diversity count, with the flag of its factor. *)
Lemma diversity_factor_cases c :
  let f := diversity_factor c (fst (diversity_band c)) (snd (diversity_band c)) in
  (4 <= c /\ impact f = 0 /\ percentage f = 100 /\ positive f = true) \/
  (c = 3 /\ impact f = -2 /\ percentage f = 80 /\ positive f = true) \/
  (c = 2 /\ impact f = -4 /\ percentage f = 60 /\ positive f = false) \/
  (c < 2 /\ impact f = -6 /\ percentage f = 40 /\ positive f = false).
Proof.
  cbv zeta. unfold diversity_band, diversity_factor. cbn [impact percentage positive].
  destruct (Z.leb_spec 4 c).
  - left. cbn [fst snd]. destruct (Z.leb_spec 3 c); [|lia]. repeat split; lia.
  - destruct (Z.eqb_spec c 3).
    + right; left. subst c. repeat split; reflexivity.
    + destruct (Z.eqb_spec c 2).
      * right; right; left. subst c. repeat split; reflexivity.
      * right; right; right. cbn [fst snd].
        destruct (Z.leb_spec 3 c); [lia|]. repeat split; lia.
Qed.

(** X2: the impacts and percentages a result displays take few values: the
    impact of Payment History lies in 0..35; that of Credit Utilization is
    0, -6, -12 or -18; Account Diversity shows (0, 100), (-2, 80), (-4, 60)
    or (-6, 40); Income Stability (-5, 70) or (-8, 50); Account Age (-3, 70)
    or (-5, 50).  No factor but the first ever displays a positive impact. *)
Theorem displayed_impacts (plaid_data : pyvalue) (res : ScoreResult) :
  calculate_factors_from_plaid plaid_data = Ok res ->
  exists f1 f2 f3 f4 f5,
    factors res = [f1; f2; f3; f4; f5] /\
    0 <= impact f1 <= 35 /\
    In (impact f2) [0; -6; -12; -18] /\
    In (impact f3, percentage f3) [(0, 100); (-2, 80); (-4, 60); (-6, 40)] /\
    In (impact f4, percentage f4) [(-5, 70); (-8, 50)] /\
    In (impact f5, percentage f5) [(-3, 70); (-5, 50)].
Proof.
  intros H. destruct (calculate_trace _ _ H) as (d & t & -> & Ht & ->).
  pose proof (trace_bounds _ _ Ht) as (_ & Hp & Hi & Ha & _).
  pose proof Ht as (_ & _ & _ & _ & _ & _ & _ & _ & Ef1 & Ef2 & _).
  apply payment_history_factor_fields in Ef1. destruct Ef1 as (_ & I1 & _).
  apply utilization_factor_fields in Ef2. destruct Ef2 as (_ & I2 & _).
  unfold result_of. cbn [factors].
  do 5 eexists. split; [reflexivity|].
  split; [rewrite I1; exact Hp|]. split; [|split; [|split]].
  - rewrite I2. pose proof (utilization_band_impact (t_utilization t)) as Hu.
    simpl in Hu. simpl.
    destruct Hu as [<-|[<-|[<-|[<-|[]]]]]; auto.
  - destruct (diversity_factor_cases (diversity_count (t_accounts d)))
      as [(_ & -> & -> & _)|[(_ & -> & -> & _)|[(_ & -> & -> & _)|(_ & -> & -> & _)]]];
      simpl; auto.
  - cbn [income_factor impact percentage].
    destruct Hi as [[-> ->]|[-> ->]]; simpl; auto.
  - cbn [account_age_factor impact percentage].
    destruct Ha as [->| ->]; simpl; auto.
Qed.

Lemma displayed_impacts_witness :
  calculate_factors_from_plaid (VDict example_dated) = Ok example_dated_result /\
  exists f2, nth_error (factors example_dated_result) 1 = Some f2 /\
             In (impact f2) [0; -6; -12; -18].
Proof.
  split; [exact example_dated_runs|].
  destruct (displayed_impacts _ _ example_dated_runs)
    as (f1 & f2 & f3 & f4 & f5 & E & _ & H2 & _).
  exists f2. split; [rewrite E; reflexivity|exact H2].
Defined.

(** X3: the [positive] flag of every factor can be read off its displayed
    impact: Payment History is positive iff its impact is at least 30,
    Credit Utilization iff its impact is 0, Account Diversity iff its impact
    is at least -2, Income Stability iff its impact is -5 and Account Age iff
    its impact is -3. *)
Theorem flags_follow_impacts (plaid_data : pyvalue) (res : ScoreResult) :
  calculate_factors_from_plaid plaid_data = Ok res ->
  exists f1 f2 f3 f4 f5,
    factors res = [f1; f2; f3; f4; f5] /\
    (positive f1 = true <-> 30 <= impact f1) /\
    (positive f2 = true <-> impact f2 = 0) /\
    (positive f3 = true <-> -2 <= impact f3) /\
    (positive f4 = true <-> impact f4 = -5) /\
    (positive f5 = true <-> impact f5 = -3).
Proof.
  intros H. destruct (calculate_trace _ _ H) as (d & t & -> & Ht & ->).
  pose proof (trace_bounds _ _ Ht) as (_ & _ & Hi & Ha & _).
  pose proof Ht as (_ & _ & _ & _ & _ & _ & _ & _ & Ef1 & Ef2 & _).
  pose proof (payment_history_factor_flag _ _ _ _ Ef1) as P1.
  apply payment_history_factor_fields in Ef1. destruct Ef1 as (_ & I1 & _).
  apply utilization_factor_fields in Ef2. destruct Ef2 as (_ & I2 & P2 & _).
  unfold result_of. cbn [factors].
  do 5 eexists. split; [reflexivity|].
  split; [|split; [|split; [|split]]].
  - rewrite P1, I1. apply Z.leb_le.
  - rewrite P2, I2.
    destruct (utilization_band_cases (t_utilization t))
      as [(A & ->)|[(A & _ & ->)|[(A & _ & _ & ->)|(A & _ & _ & ->)]]];
      rewrite A; simpl; split; intros; (reflexivity || discriminate || lia).
  - destruct (diversity_factor_cases (diversity_count (t_accounts d)))
      as [(_ & -> & _ & ->)|[(_ & -> & _ & ->)|[(_ & -> & _ & ->)|(_ & -> & _ & ->)]]];
      split; intros; (reflexivity || discriminate || lia).
  - cbn [income_factor impact positive].
    destruct Hi as [[-> ->]|[-> ->]]; simpl; split; intros;
      (reflexivity || discriminate || lia).
  - cbn [account_age_factor impact positive].
    destruct Ha as [->| ->]; simpl; split; intros;
      (reflexivity || discriminate || lia).
Qed.

Lemma flags_follow_impacts_witness :
  calculate_factors_from_plaid (VDict example_dated) = Ok example_dated_result /\
  exists f1, nth_error (factors example_dated_result) 0 = Some f1 /\
             (positive f1 = true <-> 30 <= impact f1).
Proof.
  split; [exact example_dated_runs|].
  destruct (flags_follow_impacts _ _ example_dated_runs)
    as (f1 & f2 & f3 & f4 & f5 & E & H1 & _).
  exists f1. split; [rewrite E; reflexivity|exact H1].
Defined.

(** A number is below a positive integer exactly when it is not positive
    or its integer part is below the integer. *)
Lemma shown_percentage_lt u t k :
  py_int u = Ok t -> 0 < k ->
  py_lt u (PyInt k) = (if py_gt u (PyInt 0) then t <? k else true).
Proof.
  intros Ht Hk. unfold py_lt, py_gt. destruct u as [z|f]; cbn [py_compare].
  - apply Ok_inj in Ht. subst t.
    destruct (Z.compare_spec z 0), (Z.compare_spec z k), (Z.ltb_spec z k);
      try reflexivity; lia.
  - destruct f as [s| | |s m e]; try discriminate Ht; unfold compare_Z.
    + destruct (Z.compare_spec 0 k); try lia. reflexivity.
    + cbn [py_int] in Ht. apply Ok_inj in Ht.
      destruct (Z.leb_spec 0 e) as [He|He].
      * assert (P : 0 < 2 ^ e) by (apply Z.pow_pos_nonneg; lia).
        destruct s.
        -- assert (N : Z.neg m * 2 ^ e < 0) by nia.
           destruct (Z.compare_spec (Z.neg m * 2 ^ e) k),
                    (Z.compare_spec (Z.neg m * 2 ^ e) 0); try reflexivity; lia.
        -- assert (N : 0 < Z.pos m * 2 ^ e) by nia.
           destruct (Z.compare_spec (Z.pos m * 2 ^ e) k),
                    (Z.compare_spec (Z.pos m * 2 ^ e) 0), (Z.ltb_spec t k);
             try reflexivity; lia.
      * assert (P : 0 < 2 ^ (- e)) by (apply Z.pow_pos_nonneg; lia).
        assert (KP : 0 < k * 2 ^ (- e)) by nia.
        destruct s.
        -- destruct (Z.compare_spec (Z.neg m) (k * 2 ^ (- e))),
                    (Z.compare_spec (Z.neg m) (0 * 2 ^ (- e))); try reflexivity; lia.
        -- assert (D : Z.pos m / 2 ^ (- e) < k <-> Z.pos m < k * 2 ^ (- e)).
           { split; intros L.
             - apply Z.nle_gt. intros G. apply Z.nle_gt in L. apply L.
               apply Z.div_le_lower_bound; lia.
             - apply Z.div_lt_upper_bound; lia. }
           destruct (Z.compare_spec (Z.pos m) (k * 2 ^ (- e))),
                    (Z.compare_spec (Z.pos m) (0 * 2 ^ (- e))), (Z.ltb_spec t k);
             try reflexivity; lia.
Qed.

(** X4: the band of the second factor can be read off the percentage it
    displays: the impact is 0 iff the percentage is below 30, -6 iff it is
    in 30..49, -12 iff in 50..69 and -18 iff at least 70, and the factor is
    positive iff the percentage is below 30.  (The thresholds are integers,
    so truncating the utilization never moves it across one.) *)
Theorem percentage_reads_band (plaid_data : pyvalue) (res : ScoreResult) :
  calculate_factors_from_plaid plaid_data = Ok res ->
  exists f2,
    nth_error (factors res) 1 = Some f2 /\
    (impact f2 = 0 <-> percentage f2 < 30) /\
    (impact f2 = -6 <-> 30 <= percentage f2 < 50) /\
    (impact f2 = -12 <-> 50 <= percentage f2 < 70) /\
    (impact f2 = -18 <-> 70 <= percentage f2) /\
    (positive f2 = true <-> percentage f2 < 30).
Proof.
  intros H. destruct (calculate_trace _ _ H) as (d & t & -> & Ht & ->).
  destruct Ht as (_ & _ & _ & _ & _ & _ & _ & _ & _ & Ef2 & _).
  unfold result_of. cbn [factors nth_error]. exists (t_f2 t).
  split; [reflexivity|].
  pose proof (utilization_factor_fields _ _ _ Ef2) as (_ & I2 & P2 & Pct).
  unfold utilization_factor in Ef2.
  bind_inv Ef2 as pct Epct. bind_inv Ef2 as shown Eshown. clear Ef2.
  set (u := t_utilization t) in *.
  assert (L : forall k, 0 < k -> py_lt u (PyInt k) = (percentage (t_f2 t) <? k)).
  { intros k Hk. rewrite (shown_percentage_lt u shown k Eshown Hk).
    destruct (py_gt u (PyInt 0)).
    - rewrite Eshown in Pct. apply Ok_inj in Pct. rewrite Pct. reflexivity.
    - apply Ok_inj in Pct. rewrite <- Pct. symmetry. apply Z.ltb_lt. lia. }
  rewrite P2, I2. unfold utilization_band.
  rewrite (L 30), (L 50), (L 70) by lia.
  destruct (Z.ltb_spec (percentage (t_f2 t)) 30),
           (Z.ltb_spec (percentage (t_f2 t)) 50),
           (Z.ltb_spec (percentage (t_f2 t)) 70);
    cbn [snd]; repeat split; intros; try lia; try reflexivity; try discriminate.
Qed.

Lemma percentage_reads_band_witness :
  calculate_factors_from_plaid (VDict example_dated) = Ok example_dated_result /\
  exists f2, nth_error (factors example_dated_result) 1 = Some f2 /\
             (impact f2 = -6 <-> 30 <= percentage f2 < 50).
Proof.
  split; [exact example_dated_runs|].
  destruct (percentage_reads_band _ _ example_dated_runs)
    as (f2 & Hn & _ & H6 & _).
  exists f2. split; [exact Hn|exact H6].
Defined.

(** A number whose integer part exists is comparable with every integer. *)
Lemma py_ge_not_lt u t k :
  py_int u = Ok t -> py_ge u (PyInt k) = negb (py_lt u (PyInt k)).
Proof.
  intros Ht. unfold py_ge, py_lt. destruct u as [z|f]; cbn [py_compare].
  - destruct (z ?= k); reflexivity.
  - destruct f as [s| | |s m e]; try discriminate Ht; unfold compare_Z.
    + destruct (0 ?= k); reflexivity.
    + destruct (0 <=? e).
      * destruct (_ ?= k); reflexivity.
      * destruct (_ ?= _); reflexivity.
Qed.

(** The integer part of a number is below a positive integer exactly when the
    number is. *)
Lemma int_part_lt u t k :
  py_int u = Ok t -> 0 < k -> py_lt u (PyInt k) = (t <? k).
Proof.
  intros Ht Hk. rewrite (shown_percentage_lt u t k Ht Hk).
  destruct (py_gt u (PyInt 0)) eqn:G; [reflexivity|].
  symmetry. apply Z.ltb_lt. revert G. unfold py_gt.
  destruct u as [z|f]; cbn [py_compare].
  - apply Ok_inj in Ht. subst t. destruct (Z.compare_spec z 0); try discriminate; lia.
  - destruct f as [s| | |s m e]; try discriminate Ht; unfold compare_Z.
    + apply Ok_inj in Ht. lia.
    + cbn [py_int] in Ht. apply Ok_inj in Ht.
      destruct (Z.leb_spec 0 e) as [He|He].
      * assert (P : 0 < 2 ^ e) by (apply Z.pow_pos_nonneg; lia).
        destruct s.
        -- intros _. nia.
        -- assert (N : 0 < Z.pos m * 2 ^ e) by nia.
           destruct (Z.compare_spec (Z.pos m * 2 ^ e) 0); try discriminate; lia.
      * assert (P : 0 < 2 ^ (- e)) by (apply Z.pow_pos_nonneg; lia).
        destruct s.
        -- intros _. assert (0 <= Z.pos m / 2 ^ (- e)) by (apply Z.div_pos; lia). lia.
        -- destruct (Z.compare_spec (Z.pos m) (0 * 2 ^ (- e))); try discriminate; lia.
Qed.

(** X5: the explanation of the first factor counts the transactions with an
    amount of at least 0 and says "Excellent consistency!" exactly when the
    displayed percentage is at least 90, "Good payment history." otherwise. *)
Theorem payment_explanation_reads_percentage (plaid_data : pyvalue) (res : ScoreResult) :
  calculate_factors_from_plaid plaid_data = Ok res ->
  exists d f1,
    plaid_data = VDict d /\
    nth_error (factors res) 0 = Some f1 /\
    explanation f1 =
      "You have " ++ str_of_int (len (recent_txs (get (transactions d) [])))
      ++ " positive transactions. "
      ++ (if 90 <=? percentage f1 then "Excellent consistency!"
          else "Good payment history.").
Proof.
  intros H. destruct (calculate_trace _ _ H) as (d & t & -> & Ht & ->).
  destruct Ht as (_ & _ & _ & _ & _ & _ & _ & _ & Ef1 & _).
  exists d, (t_f1 t). split; [reflexivity|]. split; [reflexivity|].
  unfold payment_history_factor in Ef1. bind_inv Ef1 as pct Epct.
  apply Ok_inj in Ef1. rewrite <- Ef1. cbn [explanation percentage].
  rewrite (py_ge_not_lt _ _ 90 Epct), (int_part_lt _ _ 90 Epct) by lia.
  rewrite Z.leb_antisym. reflexivity.
Qed.

Lemma payment_explanation_reads_percentage_witness :
  calculate_factors_from_plaid (VDict example_dated) = Ok example_dated_result /\
  exists f1, nth_error (factors example_dated_result) 0 = Some f1 /\
             explanation f1 = "You have 1 positive transactions. Good payment history.".
Proof.
  split; [exact example_dated_runs|].
  destruct (payment_explanation_reads_percentage _ _ example_dated_runs)
    as (d & f1 & Ed & Hn & He).
  exists f1. split; [exact Hn|].
  injection Ed as Ed. subst d.
  assert (Ef : Some f1 = nth_error (factors example_dated_result) 0)
    by (symmetry; exact Hn).
  vm_compute in Ef. apply Some_inj in Ef. subst f1.
  rewrite He. reflexivity.
Defined.

Lemma div_eucl_pair a b : Z.div_eucl a b = (a / b, a mod b).
Proof. unfold Z.div, Z.modulo. destruct (Z.div_eucl a b). reflexivity. Qed.

(** An integer divided by itself is exactly [1.0]. *)
Lemma div_exact_self n : 0 < n -> div (exact n) (exact n) = float_one.
Proof.
  destruct n as [|p|p]; try lia. intros _.
  unfold div, SFdiv, exact, SFdiv_core_binary. cbn [xorb].
  replace (Zdigits2 (Z.pos p) + 0 - (Zdigits2 (Z.pos p) + 0)) with 0 by lia.
  change (Z.min (fexp prec emax 0) (0 - 0)) with (-53).
  change (0 - 0 - -53) with 53.
  cbv beta iota zeta.
  rewrite Z.shiftl_mul_pow2 by lia.
  rewrite div_eucl_pair.
  rewrite Z.mul_comm, Z.div_mul, Z.mod_mul by lia.
  assert (E : new_location (Z.pos p) 0 = loc_Exact) by (apply new_location_exact; reflexivity).
  rewrite E. vm_compute. reflexivity.
Qed.

Lemma filter_all {A : Type} (p : A -> bool) (l : list A) :
  Forall (fun x => p x = true) l -> filter p l = l.
Proof.
  induction 1 as [|x l Hx _ IH]; simpl; [reflexivity|]. rewrite Hx, IH. reflexivity.
Qed.

Lemma filter_none {A : Type} (p : A -> bool) (l : list A) :
  Forall (fun x => p x = false) l -> filter p l = [].
Proof.
  induction 1 as [|x l Hx _ IH]; simpl; [reflexivity|]. rewrite Hx, IH. reflexivity.
Qed.

Lemma len_pos {A : Type} (l : list A) : l <> [] -> 0 < len l.
Proof. destruct l; [congruence|]. intros _. unfold len. simpl. lia. Qed.

Lemma nonempty_true {A : Type} (l : list A) : l <> [] -> nonempty l = true.
Proof. destruct l; [congruence|reflexivity]. Qed.

(** All amounts non-negative: the score is the int 100. *)
Lemma payment_history_all txs :
  txs <> [] -> Forall (fun tx => py_ge (tx_amount tx) (PyInt 0) = true) txs ->
  payment_history_score txs = Ok (PyInt 100).
Proof.
  intros Hne Hall. unfold payment_history_score, recent_txs.
  rewrite (nonempty_true _ Hne), (filter_all _ _ Hall).
  pose proof (len_pos _ Hne) as Hn.
  rewrite Z.max_r by lia. unfold py_truediv.
  destruct (Z.eqb_spec (len txs) 0); [lia|].
  rewrite (div_exact_self _ Hn). reflexivity.
Qed.

(** No amount non-negative: the score is the float 0.0. *)
Lemma payment_history_no txs :
  txs <> [] -> Forall (fun tx => py_ge (tx_amount tx) (PyInt 0) = false) txs ->
  payment_history_score txs = Ok (PyFloat float_zero).
Proof.
  intros Hne Hall. unfold payment_history_score, recent_txs.
  rewrite (nonempty_true _ Hne), (filter_none _ _ Hall).
  pose proof (len_pos _ Hne) as Hn.
  rewrite Z.max_r by lia. unfold py_truediv.
  destruct (Z.eqb_spec (len txs) 0); [lia|].
  destruct (len txs) as [|p|p]; try lia. reflexivity.
Qed.

(** X6: with at least one transaction, when every amount is at least 0 the
    first factor shows impact 35, percentage 100, [positive] and "Excellent
    consistency!" after the number of transactions; when every amount is
    negative (or not comparable) it shows impact 0, percentage 0, not
    positive, and still "Good payment history." *)
Theorem payment_history_extremes (d : PlaidData) (res : ScoreResult) :
  calculate_factors_from_plaid (VDict d) = Ok res ->
  t_transactions d <> [] ->
  (Forall (fun tx => py_ge (tx_amount tx) (PyInt 0) = true) (t_transactions d) ->
   hd_error (factors res) =
     Some {| name := "Payment History"; impact := 35; percentage := 100;
             positive := true;
             explanation :=
               "You have " ++ str_of_int (len (t_transactions d))
               ++ " positive transactions. Excellent consistency!" |}) /\
  (Forall (fun tx => py_ge (tx_amount tx) (PyInt 0) = false) (t_transactions d) ->
   hd_error (factors res) =
     Some {| name := "Payment History"; impact := 0; percentage := 0;
             positive := false;
             explanation :=
               "You have 0 positive transactions. Good payment history." |}).
Proof.
  intros H Hne. destruct (calculate_trace _ _ H) as (d' & t & Ed & Ht & ->).
  injection Ed as <-.
  destruct Ht as (_ & _ & _ & Ephs & Ephi & _ & _ & _ & Ef1 & _).
  unfold result_of. cbn [factors hd_error]. split; intros Hall.
  - rewrite (payment_history_all _ Hne Hall) in Ephs. apply Ok_inj in Ephs.
    rewrite <- Ephs in Ephi, Ef1.
    assert (E : payment_history_impact (PyInt 100) = Ok 35) by reflexivity.
    rewrite E in Ephi. apply Ok_inj in Ephi. rewrite <- Ephi in Ef1.
    unfold recent_txs in Ef1. rewrite (filter_all _ _ Hall) in Ef1.
    unfold payment_history_factor in Ef1. cbn [py_int bind] in Ef1.
    apply Ok_inj in Ef1. rewrite <- Ef1. reflexivity.
  - rewrite (payment_history_no _ Hne Hall) in Ephs. apply Ok_inj in Ephs.
    rewrite <- Ephs in Ephi, Ef1.
    assert (E : payment_history_impact (PyFloat float_zero) = Ok 0) by reflexivity.
    rewrite E in Ephi. apply Ok_inj in Ephi. rewrite <- Ephi in Ef1.
    unfold recent_txs in Ef1. rewrite (filter_none _ _ Hall) in Ef1.
    unfold payment_history_factor in Ef1. cbn [py_int bind float_zero] in Ef1.
    apply Ok_inj in Ef1. rewrite <- Ef1. reflexivity.
Qed.

Lemma payment_history_extremes_witness :
  exists res,
    calculate_factors_from_plaid (VDict best_case) = Ok res /\
    hd_error (factors res) =
      Some {| name := "Payment History"; impact := 35; percentage := 100;
              positive := true;
              explanation :=
                "You have " ++ str_of_int (len (t_transactions best_case))
                ++ " positive transactions. Excellent consistency!" |}.
Proof.
  destruct (calculate_factors_from_plaid (VDict best_case)) as [res|e] eqn:E.
  - exists res. split; [reflexivity|].
    assert (Hne : t_transactions best_case <> []) by (vm_compute; discriminate).
    apply (proj1 (payment_history_extremes best_case res E Hne)).
    repeat constructor.
  - vm_compute in E. discriminate E.
Defined.

(** Without used credit the utilization is the int 0 or a float float_zero. *)
Lemma utilization_nothing_used lim u :
  utilization (PyInt 0) lim = Ok u ->
  u = PyInt 0 \/ exists s, u = PyFloat (S754_zero s).
Proof.
  unfold utilization.
  destruct (py_gt lim (PyInt 0)) eqn:G; [|intros H; apply Ok_inj in H; auto].
  destruct lim as [l|f].
  - unfold py_truediv. destruct (l =? 0); [discriminate|].
    destruct l as [|p|p]; try discriminate G; cbn; intros H; apply Ok_inj in H;
      right; eexists; symmetry; exact H.
  - unfold py_truediv.
    assert (E0 : float_of_int 0 = Ok (S754_zero false)) by reflexivity.
    rewrite E0. cbn [bind]. unfold float_truediv.
    destruct f as [s| | |s m e]; try discriminate G; cbn; try discriminate;
      intros H; apply Ok_inj in H; right; eexists; symmetry; exact H.
Qed.

(** X7: when no credit-card account has a negative current balance (in
    particular when there is no credit card), the second factor is always
    the same: impact 0, percentage 0, positive, "Using 0% of available
    credit. Excellent!", whatever the limits are. *)
Theorem no_card_debt_best_band (d : PlaidData) (res : ScoreResult) :
  calculate_factors_from_plaid (VDict d) = Ok res ->
  Forall (fun acc => py_lt (balance_current acc) (PyInt 0) = false)
         (credit_accounts (t_accounts d)) ->
  nth_error (factors res) 1 =
    Some {| name := "Credit Utilization"; impact := 0; percentage := 0;
            positive := true;
            explanation := "Using 0% of available credit. Excellent!" |}.
Proof.
  intros H Hall. destruct (calculate_trace _ _ H) as (d' & t & Ed & Ht & ->).
  injection Ed as <-.
  destruct Ht as (_ & _ & Eused & _ & _ & Eu & _ & _ & _ & Ef2 & _).
  unfold total_credit_used in Eused. rewrite (filter_none _ _ Hall) in Eused.
  apply Ok_inj in Eused. rewrite <- Eused in Eu.
  unfold result_of. cbn [factors nth_error].
  destruct (utilization_nothing_used _ _ Eu) as [E|(s & E)]; rewrite E in Ef2;
    apply Ok_inj in Ef2; rewrite <- Ef2; reflexivity.
Qed.

Lemma no_card_debt_best_band_witness :
  exists res,
    calculate_factors_from_plaid (VDict best_case) = Ok res /\
    nth_error (factors res) 1 =
      Some {| name := "Credit Utilization"; impact := 0; percentage := 0;
              positive := true;
              explanation := "Using 0% of available credit. Excellent!" |}.
Proof.
  destruct (calculate_factors_from_plaid (VDict best_case)) as [res|e] eqn:E.
  - exists res. split; [reflexivity|].
    apply (no_card_debt_best_band best_case res E).
    repeat constructor.
  - vm_compute in E. discriminate E.
Defined.

(** There are no more kinds than accounts. *)
Lemma diversity_count_le accs : 0 <= diversity_count accs <= len accs.
Proof.
  unfold diversity_count, account_types, len. split; [lia|].
  apply Nat2Z.inj_le. rewrite <- (length_map account_kind accs).
  generalize (map account_kind accs). intros l.
  induction l as [|x l IH]; simpl; [lia|].
  destruct (in_dec string_dec x l); simpl; lia.
Qed.

(** X8: there are no more kinds of account than accounts, so few accounts
    cap the third factor: with at most three accounts its percentage is at
    most 80 and its impact at most -2, with at most two it is not positive,
    and with at most one it shows percentage 40 and impact -6. *)
Theorem few_accounts_cap_diversity (d : PlaidData) (res : ScoreResult) :
  calculate_factors_from_plaid (VDict d) = Ok res ->
  exists f3,
    nth_error (factors res) 2 = Some f3 /\ name f3 = "Account Diversity" /\
    0 <= diversity_count (t_accounts d) <= len (t_accounts d) /\
    (len (t_accounts d) <= 3 -> percentage f3 <= 80 /\ impact f3 <= -2) /\
    (len (t_accounts d) <= 2 -> positive f3 = false) /\
    (len (t_accounts d) <= 1 -> percentage f3 = 40 /\ impact f3 = -6).
Proof.
  intros H. destruct (calculate_trace _ _ H) as (d' & t & Ed & Ht & ->).
  injection Ed as <-. unfold result_of. cbn [factors nth_error].
  eexists. split; [reflexivity|]. split; [reflexivity|].
  pose proof (diversity_count_le (t_accounts d)) as Hc.
  split; [exact Hc|].
  destruct (diversity_factor_cases (diversity_count (t_accounts d)))
    as [(C & -> & -> & ->)|[(C & -> & -> & ->)|[(C & -> & -> & ->)|(C & -> & -> & ->)]]];
    repeat split; intros; try lia; try reflexivity.
Qed.

Lemma few_accounts_cap_diversity_witness :
  calculate_factors_from_plaid (VDict example_dated) = Ok example_dated_result /\
  exists f3, nth_error (factors example_dated_result) 2 = Some f3 /\
             percentage f3 = 40 /\ impact f3 = -6.
Proof.
  split; [exact example_dated_runs|].
  destruct (few_accounts_cap_diversity _ _ example_dated_runs)
    as (f3 & Hn & _ & _ & _ & _ & H1).
  exists f3. split; [exact Hn|]. apply H1. vm_compute. discriminate.
Defined.

Lemma lower_app a b : lower (a ++ b) = lower a ++ lower b.
Proof. induction a as [|c a IH]; simpl; [reflexivity|]. rewrite IH. reflexivity. Qed.

Lemma prefix_app n b : prefix n (n ++ b) = true.
Proof.
  induction n as [|c n IH]; simpl; [destruct b; reflexivity|].
  destruct (ascii_dec c c); [exact IH|congruence].
Qed.

Lemma contains_unfold needle s :
  contains needle s =
  if prefix needle s then true
  else match s with EmptyString => false | String _ rest => contains needle rest end.
Proof. destruct s; reflexivity. Qed.

(** [needle in a + needle + b] *)
Lemma contains_app needle a b : contains needle (a ++ needle ++ b) = true.
Proof.
  induction a as [|c a IH].
  - cbn [append]. rewrite contains_unfold, prefix_app. reflexivity.
  - cbn [append]. rewrite contains_unfold.
    destruct (prefix needle (String c (a ++ needle ++ b))); [reflexivity|exact IH].
Qed.

(** A category that holds the word in any letter case marks income. *)
Lemma income_word tx a w b :
  category tx = Some (a ++ w ++ b) -> lower w = "income" -> is_income_tx tx = true.
Proof.
  intros Ec Ew. unfold is_income_tx. rewrite Ec. cbn [get].
  rewrite !lower_app, Ew, contains_app. reflexivity.
Qed.

Lemma income_score_some txs tx :
  In tx txs -> is_income_tx tx = true -> income_stability_score txs = 70.
Proof.
  intros Hin Htx. unfold income_stability_score, income_txs.
  assert (Hf : In tx (filter is_income_tx txs)) by (apply filter_In; auto).
  destruct (filter is_income_tx txs) as [|x l]; [contradiction|].
  unfold len. simpl. reflexivity.
Qed.

(** X9: one transaction whose category contains the word "income" in any
    letter case, or whose amount exceeds 1000 (a rent payment of 1500 as
    well), makes the fourth factor impact -5, percentage 70, positive,
    "Consistent income detected."; without any such transaction it is
    impact -8, percentage 50, not positive. *)
Theorem income_detection (d : PlaidData) (res : ScoreResult) :
  calculate_factors_from_plaid (VDict d) = Ok res ->
  ((exists tx, In tx (t_transactions d) /\
      ((exists a w b, category tx = Some (a ++ w ++ b) /\ lower w = "income") \/
       py_gt (tx_amount tx) (PyInt 1000) = true)) ->
   nth_error (factors res) 3 =
     Some {| name := "Income Stability"; impact := -5; percentage := 70;
             positive := true; explanation := "Consistent income detected." |}) /\
  (Forall (fun tx => is_income_tx tx = false) (t_transactions d) ->
   nth_error (factors res) 3 =
     Some {| name := "Income Stability"; impact := -8; percentage := 50;
             positive := false;
             explanation :=
               "Income varies month-to-month. Consistent income improves creditworthiness." |}).
Proof.
  intros H. destruct (calculate_trace _ _ H) as (d' & t & Ed & Ht & ->).
  injection Ed as <-. unfold result_of. cbn [factors nth_error].
  pose proof (trace_bounds _ _ Ht) as (_ & _ & Hi & _).
  split.
  - intros (tx & Hin & Hor).
    assert (Htx : is_income_tx tx = true).
    { destruct Hor as [(a & w & b & Ec & Ew)|Hg].
      - exact (income_word _ _ _ _ Ec Ew).
      - unfold is_income_tx. rewrite Hg. apply orb_true_r. }
    pose proof (income_score_some _ _ Hin Htx) as Es.
    destruct Hi as [[_ E]|[E _]]; [|congruence].
    rewrite Es, E. reflexivity.
  - intros Hall.
    assert (Es : income_stability_score (t_transactions d) = 50).
    { unfold income_stability_score, income_txs. rewrite (filter_none _ _ Hall).
      reflexivity. }
    destruct Hi as [[E _]|[_ E]]; [congruence|].
    rewrite Es, E. reflexivity.
Qed.

Lemma income_detection_witness :
  exists res,
    calculate_factors_from_plaid (VDict salary_only) = Ok res /\
    nth_error (factors res) 3 =
      Some {| name := "Income Stability"; impact := -5; percentage := 70;
              positive := true; explanation := "Consistent income detected." |}.
Proof.
  destruct (calculate_factors_from_plaid (VDict salary_only)) as [res|e] eqn:E.
  - exists res. split; [reflexivity|].
    apply (proj1 (income_detection salary_only res E)).
    exists {| amount := Some (PyInt 900); date := Some "2024-02-01";
              category := Some "Monthly INCOME deposit" |}.
    split; [left; reflexivity|]. left.
    exists "Monthly ", "INCOME", " deposit". split; reflexivity.
  - vm_compute in E. discriminate E.
Defined.

(** ** The order of the input *)

Lemma Permutation_filter_keep {A : Type} (p : A -> bool) (l l' : list A) :
  Permutation l l' -> Permutation (filter p l) (filter p l').
Proof.
  induction 1 as [|x l l' _ IH|x y l|l l' l'' _ IH1 _ IH2]; simpl.
  - constructor.
  - destruct (p x); [constructor|]; exact IH.
  - destruct (p x), (p y); try apply Permutation_refl. constructor.
  - eapply Permutation_trans; eassumption.
Qed.

Lemma Permutation_len {A : Type} (l l' : list A) :
  Permutation l l' -> len l = len l'.
Proof. intros H. unfold len. f_equal. apply Permutation_length, H. Qed.

Lemma Permutation_nonempty {A : Type} (l l' : list A) :
  Permutation l l' -> nonempty l = nonempty l'.
Proof.
  intros H. destruct l, l'; try reflexivity.
  - apply Permutation_nil in H. discriminate.
  - apply Permutation_sym, Permutation_nil in H. discriminate.
Qed.

Lemma account_age_order txs txs' :
  Permutation txs txs' -> account_age txs = account_age txs'.
Proof.
  intros H. unfold account_age. rewrite (Permutation_nonempty _ _ H).
  destruct (nonempty txs'); [|reflexivity].
  assert (Hd : Permutation (dated txs) (dated txs')).
  { unfold dated. apply Permutation_filter_keep, Permutation_map, H. }
  destruct (dated txs), (dated txs'); try reflexivity.
  - apply Permutation_nil in Hd. discriminate.
  - apply Permutation_sym, Permutation_nil in Hd. discriminate.
Qed.

Lemma payment_history_score_order txs txs' :
  Permutation txs txs' -> payment_history_score txs = payment_history_score txs'.
Proof.
  intros H. unfold payment_history_score, recent_txs.
  rewrite (Permutation_nonempty _ _ H), (Permutation_len _ _ H),
    (Permutation_len _ _ (Permutation_filter_keep _ _ _ H)).
  reflexivity.
Qed.

Lemma income_stability_score_order txs txs' :
  Permutation txs txs' -> income_stability_score txs = income_stability_score txs'.
Proof.
  intros H. unfold income_stability_score, income_txs.
  rewrite (Permutation_len _ _ (Permutation_filter_keep _ _ _ H)). reflexivity.
Qed.

(** X10: the order of the transactions does not matter: two objects with the
    same accounts whose transactions are a rearrangement of each other give
    the same result, or raise the same exception. *)
Theorem transaction_order_irrelevant (d d' : PlaidData) :
  accounts d = accounts d' ->
  Permutation (t_transactions d) (t_transactions d') ->
  calculate_factors_from_plaid (VDict d) = calculate_factors_from_plaid (VDict d').
Proof.
  intros Ha Hp. cbn [calculate_factors_from_plaid]. unfold score_plaid.
  fold (t_transactions d). fold (t_transactions d'). rewrite Ha.
  rewrite (payment_history_score_order _ _ Hp),
    (income_stability_score_order _ _ Hp), (account_age_order _ _ Hp).
  unfold recent_txs.
  rewrite (Permutation_len _ _ (Permutation_filter_keep _ _ _ Hp)).
  reflexivity.
Qed.

Lemma transaction_order_irrelevant_witness :
  calculate_factors_from_plaid (VDict example_dated) =
  calculate_factors_from_plaid (VDict example_dated_swapped).
Proof.
  apply (transaction_order_irrelevant example_dated example_dated_swapped).
  - reflexivity.
  - apply perm_swap.
Defined.

(** An int sum is the sum of the values; it never raises. *)
Lemma sum_from_int_values xs : forall a,
  Forall is_int xs ->
  sum_from (PyInt a) xs = Ok (PyInt (a + fold_right Z.add 0 (map int_value xs))).
Proof.
  induction xs as [|x xs IH]; intros a H.
  - simpl. f_equal. f_equal. lia.
  - inversion H as [|? ? (z & ->) Hrest]; subst.
    cbn [sum_from py_add bind]. rewrite (IH _ Hrest). simpl. f_equal. f_equal. lia.
Qed.

Lemma fold_add_order xs ys :
  Permutation xs ys -> fold_right Z.add 0 xs = fold_right Z.add 0 ys.
Proof. induction 1; simpl; lia. Qed.

Lemma Forall_is_int_order (xs ys : list pynum) :
  Permutation xs ys -> Forall is_int xs -> Forall is_int ys.
Proof. intros H. apply Permutation_Forall, H. Qed.

Lemma py_sum_ints_order xs ys :
  Permutation xs ys -> Forall is_int xs -> py_sum xs = py_sum ys.
Proof.
  intros Hp Hx. unfold py_sum.
  rewrite (sum_from_int_values xs 0 Hx).
  rewrite (sum_from_int_values ys 0 (Forall_is_int_order _ _ Hp Hx)).
  rewrite (fold_add_order _ _ (Permutation_map int_value Hp)). reflexivity.
Qed.

Lemma diversity_count_order accs accs' :
  Permutation accs accs' -> diversity_count accs = diversity_count accs'.
Proof.
  intros H. symmetry. apply diversity_count_any_order.
  - apply NoDup_nodup.
  - intros k. unfold account_types. rewrite nodup_In. split; intros Hk.
    + eapply Permutation_in; [apply Permutation_sym, Permutation_map, H|exact Hk].
    + eapply Permutation_in; [apply Permutation_map, H|exact Hk].
Qed.

(** X11: with integer balances the order of the accounts does not matter:
    two objects with the same transactions whose accounts are a
    rearrangement of each other give the same result.  (Float balances are
    summed from left to right, and the rounded sum depends on the order.) *)
Theorem account_order_irrelevant (d d' : PlaidData) :
  transactions d = transactions d' ->
  Permutation (t_accounts d) (t_accounts d') ->
  Forall whole_balances (t_accounts d) ->
  calculate_factors_from_plaid (VDict d) = calculate_factors_from_plaid (VDict d').
Proof.
  intros Ht Hp Hw. cbn [calculate_factors_from_plaid]. unfold score_plaid.
  fold (t_accounts d). fold (t_accounts d'). rewrite Ht.
  assert (E1 : total_balance (t_accounts d) = total_balance (t_accounts d')).
  { unfold total_balance. apply py_sum_ints_order.
    - apply Permutation_map, Hp.
    - rewrite Forall_map. eapply Forall_impl; [|exact Hw]. intros a [H _]. exact H. }
  assert (E2 : total_credit_limit (t_accounts d) = total_credit_limit (t_accounts d')).
  { unfold total_credit_limit, credit_accounts. apply py_sum_ints_order.
    - apply Permutation_map, Permutation_filter_keep, Hp.
    - rewrite Forall_map. rewrite Forall_forall. intros a Ha.
      apply filter_In in Ha. rewrite Forall_forall in Hw. apply (Hw a), Ha. }
  assert (E3 : total_credit_used (t_accounts d) = total_credit_used (t_accounts d')).
  { unfold total_credit_used, credit_accounts. apply py_sum_ints_order.
    - apply Permutation_map, Permutation_filter_keep, Permutation_filter_keep, Hp.
    - rewrite Forall_map. rewrite Forall_forall. intros a Ha.
      apply filter_In in Ha. destruct Ha as [Ha _]. apply filter_In in Ha.
      rewrite Forall_forall in Hw. destruct (Hw a (proj1 Ha)) as [(z & Ez) _].
      rewrite Ez. exists (Z.abs z). reflexivity. }
  rewrite E1, E2, E3, (diversity_count_order _ _ Hp). reflexivity.
Qed.

Lemma account_order_irrelevant_witness :
  calculate_factors_from_plaid (VDict two_accounts) =
  calculate_factors_from_plaid (VDict two_accounts_swapped).
Proof.
  apply (account_order_irrelevant two_accounts two_accounts_swapped).
  - reflexivity.
  - apply perm_swap.
  - constructor; [split; eexists; reflexivity|].
    constructor; [split; eexists; reflexivity|]. constructor.
Defined.

(** ** The program around the scoring *)

(** X12: [main] ends with status 0 or 1 and always prints [vcCount] 0.  With
    status 0 the output carries no error and five factors under the five
    fixed names (computed or canned); with status 1 it carries an error, the
    score 674 and the single factor Payment History. *)
Theorem main_output_shape (str : exn -> string) (env : Environment) :
  let out := main str env in
  vcCount (analysis (stdout out)) = 0 /\
  ((exit_status out = 0 /\ error (stdout out) = None /\
    map name (factors (analysis (stdout out))) = factor_names) \/
   (exit_status out = 1 /\ error (stdout out) <> None /\
    map name (factors (analysis (stdout out))) = ["Payment History"] /\
    score (analysis (stdout out)) = 674)).
Proof.
  cbv zeta. unfold main.
  destruct (truthy (load_plaid_data env (argv1 env))); cbn [negb].
  - destruct (calculate_factors_from_plaid (load_plaid_data env (argv1 env)))
      as [res|e] eqn:E.
    + cbn [stdout exit_status analysis error].
      destruct (calculate_trace _ _ E) as (d & t & _ & Ht & ->).
      split; [reflexivity|]. left. split; [reflexivity|]. split; [reflexivity|].
      destruct Ht as (_ & _ & _ & _ & _ & _ & _ & _ & Ef1 & Ef2 & _).
      apply payment_history_factor_fields in Ef1. destruct Ef1 as (N1 & _).
      apply utilization_factor_fields in Ef2. destruct Ef2 as (N2 & _).
      unfold result_of. cbn [factors map name diversity_factor income_factor
                             account_age_factor].
      rewrite N1, N2. reflexivity.
    + cbn [stdout exit_status]. split; [reflexivity|]. right.
      repeat split. discriminate.
  - split; [reflexivity|]. left. repeat split.
Qed.

(** X13: a document that loads and is truthy but is no JSON object (a
    non-empty list or string, a number, [true]) makes the scoring raise on
    its first [.get]; [main] prints the error response and exits with
    status 1. *)
Theorem non_object_document_fails (str : exn -> string) (env : Environment) :
  truthy (load_plaid_data env (argv1 env)) = true ->
  (forall d, load_plaid_data env (argv1 env) <> VDict d) ->
  main str env =
    {| stdout := error_response str AttributeError_get; exit_status := 1 |}.
Proof.
  intros Ht Hd. unfold main. rewrite Ht. cbn [negb].
  destruct (load_plaid_data env (argv1 env)) as [| | | | |d]; try reflexivity.
  exfalso. apply (Hd d). reflexivity.
Qed.

Lemma non_object_document_fails_witness :
  main sample_str (env_with (VList [VNum (PyInt 1)])) =
    {| stdout := error_response sample_str AttributeError_get; exit_status := 1 |}.
Proof.
  apply (non_object_document_fails sample_str (env_with (VList [VNum (PyInt 1)]))).
  - reflexivity.
  - intros d H. vm_compute in H. discriminate H.
Defined.

(** X14: when the loaded object has transactions and none of them carries a
    non-empty date, the scoring never returns ([min] of an empty sequence),
    whatever the accounts are; [main] prints an error response and exits
    with status 1. *)
Theorem undated_transactions_fail (str : exn -> string) (env : Environment)
    (d : PlaidData) :
  load_plaid_data env (argv1 env) = VDict d ->
  t_transactions d <> [] -> dated (t_transactions d) = [] ->
  (forall res, calculate_factors_from_plaid (VDict d) <> Ok res) /\
  exit_status (main str env) = 1 /\
  exists e, stdout (main str env) = error_response str e.
Proof.
  intros Hl Hne Hd.
  assert (Hno : forall res, calculate_factors_from_plaid (VDict d) <> Ok res).
  { intros res H. destruct (calculate_trace _ _ H) as (d' & t & Ed & Ht & _).
    injection Ed as <-.
    destruct Ht as (_ & _ & _ & _ & _ & _ & _ & Eage & _).
    unfold account_age in Eage.
    destruct (t_transactions d) as [|tx txs]; [congruence|].
    cbn [nonempty] in Eage. rewrite Hd in Eage. discriminate Eage. }
  split; [exact Hno|].
  assert (Ht : truthy (VDict d) = true).
  { unfold t_transactions in Hne. cbn [truthy].
    destruct (transactions d); [|cbn [get] in Hne; congruence].
    destruct (accounts d); reflexivity. }
  unfold main. rewrite Hl, Ht. cbn [negb].
  destruct (calculate_factors_from_plaid (VDict d)) as [res|e] eqn:E.
  - exfalso. exact (Hno res eq_refl).
  - split; [reflexivity|]. exists e. reflexivity.
Qed.

Lemma undated_transactions_fail_witness :
  exit_status (main sample_str (env_with (VDict example_input))) = 1.
Proof.
  refine (proj1 (proj2 (undated_transactions_fail sample_str
                          (env_with (VDict example_input)) example_input _ _ _))).
  - reflexivity.
  - vm_compute. discriminate.
  - reflexivity.
Defined.

(** X15: with a non-empty path argument nothing but the file at that path
    is read: two environments that agree on the argument and on that file
    load the same data and print the same output, whatever lies at the
    default places; when that path does not exist the output is the
    fallback, even if a default file exists. *)
Theorem explicit_path_only (str : exn -> string) (env env' : Environment)
    (p : string) :
  p <> "" -> argv1 env = Some p -> argv1 env' = Some p -> fs env p = fs env' p ->
  load_plaid_data env (argv1 env) = load_plaid_data env' (argv1 env') /\
  main str env = main str env' /\
  (fs env p = None -> main str env = fallback_outcome).
Proof.
  intros Hp Ha Ha' Hfs.
  assert (Hload : forall e, argv1 e = Some p ->
            load_plaid_data e (argv1 e) =
            match fs e p with Some (Document v) => v | _ => VNone end).
  { intros e He. unfold load_plaid_data, exists_path, try_load. rewrite He.
    cbn [get]. destruct (String.eqb_spec p ""); [contradiction|]. cbn [negb].
    destruct (fs e p) as [[|v]|]; reflexivity. }
  assert (E : load_plaid_data env (argv1 env) = load_plaid_data env' (argv1 env')).
  { rewrite (Hload env Ha), (Hload env' Ha'), Hfs. reflexivity. }
  split; [exact E|]. split.
  - unfold main. rewrite E. reflexivity.
  - intros Hnone. apply main_falsy. rewrite (Hload env Ha), Hnone. reflexivity.
Qed.

Lemma explicit_path_only_witness :
  main sample_str (env_with (VDict example_dated)) =
  main sample_str (env_both (VDict example_dated) (VDict empty_lists)).
Proof.
  refine (proj1 (proj2 (explicit_path_only sample_str
                          (env_with (VDict example_dated))
                          (env_both (VDict example_dated) (VDict empty_lists))
                          "plaid_user_data.json" _ _ _ _))).
  - discriminate.
  - reflexivity.
  - reflexivity.
  - reflexivity.
Defined.

(** X16: without a path argument (none, or the empty string) the first of
    the three default places that exists decides: [plaid_node/] under the
    project root (the parent of the script's directory), then [plaid_node/]
    under the working directory, then [../plaid_node/]; a file there that
    does not open or parse gives [None] and the later places are not
    tried. *)
Theorem default_search_order (env : Environment) :
  get (argv1 env) "" = "" ->
  load_plaid_data env (argv1 env) =
    match fs env (script_candidate env) with
    | Some f => file_value f
    | None =>
        match fs env (cwd_candidate env) with
        | Some f => file_value f
        | None =>
            match fs env relative_candidate with
            | Some f => file_value f
            | None => VNone
            end
        end
    end.
Proof.
  intros Ha. unfold load_plaid_data, exists_path, try_load. rewrite Ha.
  cbn [String.eqb negb].
  destruct (fs env (script_candidate env)) as [[|v1]|] eqn:E1.
  - rewrite E1. reflexivity.
  - rewrite E1. reflexivity.
  - destruct (fs env (cwd_candidate env)) as [[|v2]|] eqn:E2; try reflexivity.
    destruct (fs env relative_candidate) as [[|v3]|]; reflexivity.
Qed.

Lemma default_search_order_witness :
  load_plaid_data (env_cwd (VDict example_dated)) (argv1 (env_cwd (VDict example_dated)))
  = VDict example_dated.
Proof.
  exact (default_search_order (env_cwd (VDict example_dated)) eq_refl).
Defined.

(** X17: the printed score is 674 exactly when no analysis was computed (the
    data is missing or falsy, or the scoring raised): computed scores are
    multiples of 10, so a reader of the output can tell the fallback from a
    computed result by the score alone. *)
Theorem fallback_score_is_telltale (str : exn -> string) (env : Environment) :
  score (analysis (stdout (main str env))) = 674 <->
  ~ (truthy (load_plaid_data env (argv1 env)) = true /\
     exists res, calculate_factors_from_plaid (load_plaid_data env (argv1 env)) = Ok res).
Proof.
  unfold main. destruct (truthy (load_plaid_data env (argv1 env))); cbn [negb].
  - destruct (calculate_factors_from_plaid (load_plaid_data env (argv1 env)))
      as [res|e] eqn:E; cbn [stdout analysis score].
    + destruct (calculate_trace _ _ E) as (d & t & _ & _ & ->).
      unfold result_of. cbn [score].
      split.
      * intros S. exfalso. lia.
      * intros N. exfalso. apply N. split; [reflexivity|]. eexists. reflexivity.
    + split; [|reflexivity]. intros _ (_ & res & Hres). discriminate Hres.
  - split; [|reflexivity]. intros _ (Hf & _). discriminate Hf.
Qed.

Lemma fallback_score_is_telltale_witness :
  score (analysis (stdout (main sample_str env_bare))) = 674.
Proof.
  apply (proj2 (fallback_score_is_telltale sample_str env_bare)).
  intros [H _]. vm_compute in H. discriminate H.
Defined.

(** * The quest generator *)

Import Quests.

Lemma subsequence_NoDup {A : Type} (xs ys : list A) :
  subsequence xs ys -> NoDup ys -> NoDup xs.
Proof.
  induction 1 as [|x xs ys H IH|y xs ys H IH]; intros Hnd.
  - constructor.
  - inversion Hnd as [|? ? Hnotin Hrest]; subst. constructor; [|apply IH, Hrest].
    intros Hin. apply Hnotin. clear - H Hin.
    induction H; simpl in *; [contradiction| |right; auto].
    destruct Hin as [->|Hin]; [left; reflexivity|right; auto].
  - inversion Hnd; subst. apply IH. assumption.
Qed.

Lemma subsequence_length {A : Type} (xs ys : list A) :
  subsequence xs ys -> (List.length xs <= List.length ys)%nat.
Proof. induction 1; simpl; lia. Qed.

(** X18: for every row the quests are a selection of the nine fixed quests
    in their fixed order: none occurs twice and there are at most nine. *)
Theorem quests_in_order (row : user_row) :
  subsequence (generate_quests row) all_quests /\
  NoDup (generate_quests row) /\
  (List.length (generate_quests row) <= 9)%nat.
Proof.
  assert (H : subsequence (generate_quests row) all_quests).
  { unfold generate_quests, all_quests.
    destruct (py_gt (fast_food_spend row) (PyInt 200));
    destruct (nonzero (rent_paid_late row));
    destruct (py_gt (utilization row) (PyFloat lit_0_3));
    destruct (py_lt (payment_history row) (PyFloat lit_0_9));
    destruct (nonzero (is_student row) && py_lt (test_score_avg row) (PyInt 80));
    destruct (py_lt (github_commits row) (PyInt 10));
    destruct (negb (nonzero (dao_member row)));
    destruct (py_lt (crypto_income row) (PyInt 500));
    destruct (py_lt (nft_income row) (PyInt 200));
    cbn [append_if app];
    repeat first [apply sub_nil | apply sub_keep | apply sub_skip]. }
  split; [exact H|]. split.
  - apply (subsequence_NoDup _ _ H). unfold all_quests.
    repeat (constructor; [simpl; intuition discriminate|]). constructor.
  - apply (subsequence_length _ _ H).
Qed.

Lemma prefix_dash q : prefix "- " (quest_line q) = true.
Proof. unfold quest_line. simpl. destruct q; reflexivity. Qed.

Lemma substring_all s : substring 0 (String.length s) s = s.
Proof. induction s as [|c s IH]; simpl; [reflexivity|]. rewrite IH. reflexivity. Qed.

Lemma from_third_dash q : from_third (quest_line q) = q.
Proof.
  unfold from_third, quest_line. cbn [append String.length].
  replace (S (S (String.length q)) - 2)%nat with (String.length q) by lia.
  cbn [substring]. apply substring_all.
Qed.

Lemma parse_quests_acc lines : forall quests,
  parse_quests quests lines = (quests ++ parse_quests [] lines)%list.
Proof.
  induction lines as [|l lines IH]; intros quests; simpl.
  - rewrite app_nil_r. reflexivity.
  - destruct (prefix "- " l).
    + rewrite IH, (IH [from_third l]), <- app_assoc. reflexivity.
    + apply IH.
Qed.

Lemma parse_quests_app l1 l2 :
  parse_quests [] (l1 ++ l2)%list = (parse_quests [] l1 ++ parse_quests [] l2)%list.
Proof.
  induction l1 as [|l l1 IH]; simpl; [reflexivity|].
  destruct (prefix "- " l).
  - rewrite parse_quests_acc, IH, (parse_quests_acc l1 [from_third l]).
    rewrite app_assoc. reflexivity.
  - exact IH.
Qed.

Lemma parse_quests_noise lines :
  Forall (fun l => prefix "- " l = false) lines -> parse_quests [] lines = [].
Proof.
  induction 1 as [|l lines Hl _ IH]; simpl; [reflexivity|]. rewrite Hl. exact IH.
Qed.

Lemma parse_quest_lines qs : parse_quests [] (map quest_line qs) = qs.
Proof.
  induction qs as [|q qs IH]; [reflexivity|].
  cbn [map parse_quests]. rewrite prefix_dash. cbn [app].
  rewrite parse_quests_acc, IH, from_third_dash. reflexivity.
Qed.

(** X19: what the script prints the endpoint reads back: when the lines it
    writes around the quests do not start with "- ", a request with the
    right key gets exactly the quests of [generate_quests], in order; a
    request with a wrong key or without one gets 401 and no quest. *)
Theorem quest_round_trip (api_key : string) (header : option string)
    (before after : list string) (row : user_row) :
  Forall (fun l => prefix "- " l = false) before ->
  Forall (fun l => prefix "- " l = false) after ->
  let stdout_lines :=
    (before ++ map quest_line (generate_quests row) ++ after)%list in
  (header = Some api_key ->
   generate_quests_endpoint api_key header stdout_lines
     = Quests_200 (generate_quests row)) /\
  (header <> Some api_key ->
   generate_quests_endpoint api_key header stdout_lines = Unauthorized_401).
Proof.
  intros Hb Ha. cbv zeta. unfold generate_quests_endpoint, require_api_key. split.
  - intros ->. rewrite String.eqb_refl. cbn [negb].
    rewrite !parse_quests_app, (parse_quests_noise _ Hb), (parse_quests_noise _ Ha),
      parse_quest_lines, app_nil_r. reflexivity.
  - intros Hne. destruct header as [key|]; [|reflexivity].
    destruct (String.eqb_spec key api_key); [congruence|reflexivity].
Qed.

Lemma quest_round_trip_witness :
  generate_quests_endpoint "changeme" (Some "changeme")
    (report_head ++ map quest_line (generate_quests needy_row) ++ [])%list
  = Quests_200 (generate_quests needy_row).
Proof.
  refine (proj1 (quest_round_trip "changeme" (Some "changeme") report_head []
                   needy_row _ _) eq_refl).
  - repeat constructor.
  - constructor.
Defined.
